(** * pathml.core.slide_data: SlideData.generate_tiles and SlideData.run

    A shallow embedding of [src/pathml/core/slide_data.py]: [__init__],
    [run], [_create_tile_dataset] and [generate_tiles].  [__repr__], [plot]
    and [write] are left out: they format or hand over objects of modules
    that are not among the sources.

    - Python exceptions are values of [Py.exn]; a call that may raise returns
      a [Py.result].
    - [SlideData.generate_tiles] is a generator: it is embedded as the finite
      trace of the tiles it yields, followed by the exception that ended it,
      if any; so is the generator of the backend that it iterates.
    - [SlideData.run] mutates the aggregate, creates a dask client and submits
      jobs: it is embedded in a state-and-exception monad over
      [SlideData.World].  A raised exception keeps the state reached so far,
      as in Python.
    - Slide-level labels are a Python dict that is passed around by reference:
      the labels fields hold a reference [Py.ref] into a store of dicts.
    - A backend makes a new [Tile] object for each region it reads, and the
      client pickles the tile it is given: tiles are values, and the
      assignments to a tile's attributes return the updated tile.
    - The modules that [slide_data.py] imports from the same package (masks,
      tile, tiles, slide_backends, pipeline) are not among the sources; what
      is used of them is modelled from the specification.

    Python [assert] statements are modelled as executed (no [-O]). *)

From stdpp Require Import base numbers option list gmap strings.

Local Open Scope Z_scope.

(** ** Python values used by the module *)

Module Py.

(** The exceptions that [slide_data.py] raises itself or lets through. *)
Inductive exn : Type :=
| AssertionError (msg : string)
| Exception (msg : string)
| TypeError (msg : string)
| AttributeError (msg : string)
| IndexError (msg : string)
| ValueError (msg : string).

#[global] Instance exn_eq_dec : EqDecision exn.
Proof. solve_decision. Defined.

(** Outcome of a call: a returned value or a raised exception. *)
Inductive result (A : Type) : Type :=
| Ok (a : A)
| Raise (e : exn).
#[global] Arguments Ok {A} a.
#[global] Arguments Raise {A} e.

Definition bind {A B} (r : result A) (k : A -> result B) : result B :=
  match r with
  | Ok a => k a
  | Raise e => Raise e
  end.

#[global] Instance result_ret : MRet result := fun _ a => Ok a.
#[global] Instance result_bind : MBind result := fun _ _ k r => bind r k.

(** [assert cond, msg] *)
Definition assert (cond : bool) (msg : string) : result unit :=
  if cond then Ok tt else Raise (AssertionError msg).

(** A reference to a Python object (here: to a labels dict), and the store
    that holds the dicts.  Two fields with the same reference see the same
    dict, whatever is written to it. *)
Definition ref : Type := positive.

Abbreviation store := (gmap ref (gmap string Z)).

Definition deref (st : store) (r : option ref) : option (gmap string Z) :=
  r ≫= fun l => st !! l.

(** [slice(start, stop)] with both bounds given and no step. *)
Record slice : Type := Slice { start : Z; stop : Z }.

(** One bound of a slice adjusted to a sequence of length [len], the way
    [slice.indices] does for a positive step: a negative bound counts from
    the end, and the outcome is clamped to [0..len]. *)
Definition adjust (bound : Z) (len : nat) : nat :=
  if bound <? 0
  then Z.to_nat (Z.max 0 (bound + Z.of_nat len))
  else Z.to_nat (Z.min bound (Z.of_nat len)).

(** First index and number of indices that a slice selects. *)
Definition slice_range (s : slice) (len : nat) : nat * nat :=
  let lo := adjust (start s) len in
  let hi := adjust (stop s) len in
  (lo, (hi - lo)%nat).

End Py.

Export Py (exn, result, Ok, Raise).
Import Py.

(** ** pathml.core.masks *)

Module Masks.

(** Modelled from the spec: [pathml.core.masks] is not among the sources.
    Spec 3 and glossary: a mask is an "array-like annotation aligned
    pixel-for-pixel (or scaled) with the slide".  Here: a two-dimensional
    array, given by its shape and its entries; entries outside the shape are
    not part of the array. *)
Record Mask : Type := mkMask {
  shape : nat * nat;
  at_ : nat -> nat -> Z
}.

(** Modelled from the spec: [pathml.core.masks] is not among the sources.
    Indexing a mask by two slices, [mask[s0, s1]]: the sub-region the slices
    select, bounds clipped to the mask's extent as array slicing does. *)
Definition getitem (m : Mask) (sl : slice * slice) : Mask :=
  let '(r0, n0) := slice_range (fst sl) (fst (shape m)) in
  let '(c0, n1) := slice_range (snd sl) (snd (shape m)) in
  {| shape := (n0, n1);
     at_ := fun r c => at_ m (r0 + r)%nat (c0 + c)%nat |}.

(** The rectangle of [di] rows from row [i] and [dj] columns from column
    [j] lies within the extent of [m]. *)
Definition covers (m : Mask) (i j : Z) (di dj : nat) : Prop :=
  0 <= i /\ i + Z.of_nat di <= Z.of_nat (fst (shape m)) /\
  0 <= j /\ j + Z.of_nat dj <= Z.of_nat (snd (shape m)).

(** The [Masks] object: a mapping from mask key to mask. *)
Abbreviation t := (gmap string Mask).

(** Modelled from the spec: [len(masks)], the number of keys of the
    mapping. *)
Definition len (ms : t) : nat := size ms.

(** Modelled from the spec: [Masks.slice] is not among the sources.  Spec
    4.2: "request that exact sub-region from every mask in the mapping,
    producing a new per-tile Masks mapping with identical keys". *)
Definition slice (ms : t) (sl : Py.slice * Py.slice) : t :=
  (fun m => getitem m sl) <$> ms.

End Masks.

(** ** pathml.core.tile *)

Module Tile.

(** Modelled from the spec: the "pixel data" of a tile, [tile.image], an
    array of at least two dimensions; [shape[0:2]] is (rows, columns),
    [channels] the remaining dimensions. *)
Record Image : Type := mkImage {
  shape01 : nat * nat;
  channels : list nat;
  pixels : list Z
}.

(** The provenance tag: the class of the aggregate that produced a tile. *)
Definition SlideType : Type := string.

(** Modelled from the spec: [pathml.core.tile] is not among the sources.
    Spec 3: a tile is "{pixel data, optional coordinate (row, col) in slide
    pixel space, optional masks sub-mapping, optional labels, optional
    provenance tag}".  [None] is Python's [None]. *)
Record t : Type := mk {
  image : Image;
  coords : option (Z * Z);
  masks : option Masks.t;
  labels : option Py.ref;
  slidetype : option SlideType
}.

(** [tile.masks = m] *)
Definition set_masks (tile : t) (m : option Masks.t) : t :=
  {| image := image tile; coords := coords tile; masks := m;
     labels := labels tile; slidetype := slidetype tile |}.

(** [tile.labels = l] *)
Definition set_labels (tile : t) (l : option Py.ref) : t :=
  {| image := image tile; coords := coords tile; masks := masks tile;
     labels := l; slidetype := slidetype tile |}.

(** [tile.slidetype = s] *)
Definition set_slidetype (tile : t) (s : option SlideType) : t :=
  {| image := image tile; coords := coords tile; masks := masks tile;
     labels := labels tile; slidetype := s |}.

(** [len(tile.masks)]; [len(None)] is a [TypeError]. *)
Definition len_masks (tile : t) : result nat :=
  match masks tile with
  | Some m => Ok (Masks.len m)
  | None => Raise (TypeError "object of type 'NoneType' has no len()")
  end.

End Tile.

(** ** pathml.core.tiles *)

Module Tiles.

(** The key of an entry: the tile's coordinate, or a sequential key. *)
Inductive key : Type :=
| Coord (i j : Z)
| Seq (n : nat).

#[global] Instance key_eq_dec : EqDecision key.
Proof. solve_decision. Defined.

(** Modelled from the spec: [pathml.core.tiles] is not among the sources.
    Spec 3: the container is "a mapping from coordinate (or insertion order,
    if coordinates absent) to processed Tile; append-only from the
    Dispatch/Collection Engine's perspective; invariant: at most one entry
    per coordinate key"; spec 4.4: "duplicate coordinates across tiles [...]
    each get a distinct slot -- the container must not collapse or silently
    overwrite on duplicate keys"; spec 4.5: it is "indexed 0..count-1" in
    collection order.  So: the entries in insertion order, each with its
    key, no coordinate being the key of two entries. *)
Definition t : Type := list (key * Tile.t).

(** Modelled from the spec: [Tiles()], a container without entries. *)
Definition empty : t := [].

Definition keys (c : t) : list key := c.*1.

Definition values (c : t) : list Tile.t := c.*2.

(** The key under which [tile] enters [c]: its coordinate; a sequential key
    when it has no coordinate, and also when its coordinate is the key of an
    entry already, so that the tile gets a slot of its own and the
    coordinate stays the key of one entry. *)
Definition key_for (c : t) (tile : Tile.t) : key :=
  match Tile.coords tile with
  | Some (i, j) =>
      if bool_decide (Coord i j ∈ keys c) then Seq (length c) else Coord i j
  | None => Seq (length c)
  end.

(** Modelled from the spec: [tiles.add(tile)] appends an entry under the key
    [key_for]. *)
Definition add (c : t) (tile : Tile.t) : t := c ++ [(key_for c tile, tile)].

(** Modelled from the spec: [len(tiles)], the number of entries. *)
Definition len (c : t) : nat := length c.

(** Modelled from the spec: [tiles[ix]] for an integer [ix], positional
    lookup, defined by the spec on [0..count-1]; the model raises
    [IndexError] elsewhere. *)
Definition getitem (c : t) (ix : Z) : result Tile.t :=
  if bool_decide (0 <= ix < Z.of_nat (len c))
  then match values c !! Z.to_nat ix with
       | Some tile => Ok tile
       | None => Raise (IndexError "index out of range")
       end
  else Raise (IndexError "index out of range").

End Tiles.

(** ** pathml.preprocessing.pipeline *)

Module Pipeline.

(** Modelled from the spec: [pathml.preprocessing.pipeline] is not among the
    sources.  Spec 6: "single method apply(tile) -> tile"; a job may raise
    (spec 7, JobFailure). *)
Record t : Type := mk { apply : Tile.t -> result Tile.t }.

(** The [pipeline] argument of [run] is any Python object. *)
Inductive arg : Type :=
| IsPipeline (p : t)
| NotPipeline (type_name : string).

End Pipeline.

(** ** dask.distributed

    The worker pool of spec 6: [submit(callable, *args) -> future] and the
    futures awaited "in arrival order". *)

Module Dask.

Record Client : Type := mkClient { client_id : nat }.

(** A future: the slot it was submitted in and the outcome of its job. *)
Record Future : Type := mkFuture {
  key : nat;
  outcome : result Tile.t
}.

(** [as_completed(futures)]: the futures in the order in which they
    complete.  The order is chosen by the pool; [sched] stands for its
    choices: each number picks the next future to complete among those
    still pending, and once [sched] is used up the rest completes in
    submission order.  Every arrival order comes from some [sched]
    ([as_completed_any_order] below). *)
Fixpoint as_completed {A} (sched : list nat) (pending : list A) : list A :=
  match sched with
  | [] => pending
  | k :: sched' =>
      let k' := (k mod length pending)%nat in
      match pending !! k' with
      | Some x => x :: as_completed sched' (delete k' pending)
      | None => []
      end
  end.

End Dask.

(** ** pathml.core.slide_backends *)

Module SlideBackend.

(** [shape]: "int or tuple(int)". *)
Inductive shape_arg : Type :=
| Square (n : Z)
| HeightWidth (h w : Z).

(** What iterating the generator of a backend gives: the tiles it yields,
    and the exception that ends it when it raises (spec 4.1: "fails with
    ConfigurationError if shape/stride are non-positive or level does not
    exist on the source"). *)
Record tile_generator : Type := mk_generator {
  tiles : list Tile.t;
  error : option exn
}.

(** Modelled from the spec: [pathml.core.slide_backends] is not among the
    sources.  Spec 4.1 and 6: a slide opened by a backend has a method
    [generate_tiles(shape, stride, pad, **kwargs)], a generator that yields
    a finite sequence of tiles or fails. *)
Record t : Type := mk {
  generate_tiles :
    shape_arg -> option Z -> bool -> gmap string Z -> tile_generator
}.

End SlideBackend.

(** ** pathml.core.slide_data *)

(** The class [TileDataset] that [_create_tile_dataset] defines (lines
    121-130). *)
Module TileDataset.

(** The attributes set by [__init__]: [self.tiles] and [self.labels]. *)
Record t : Type := mk {
  tiles : option Tiles.t;
  labels : option Py.ref
}.

(** [len(self.tiles)] *)
Definition __len__ (self : t) : result nat :=
  match tiles self with
  | Some c => Ok (Tiles.len c)
  | None => Raise (TypeError "object of type 'NoneType' has no len()")
  end.

(** [self.tiles[ix], self.labels] *)
Definition __getitem__ (self : t) (ix : Z) : result (Tile.t * option Py.ref) :=
  match tiles self with
  | Some c => tile ← Tiles.getitem c ix; Ok (tile, labels self)
  | None => Raise (TypeError "'NoneType' object is not subscriptable")
  end.

End TileDataset.

Module SlideData.

(** The attributes of a [SlideData] object; [cls] is [type(self)].  The
    constructor also admits an h5py group for [masks] and [tiles]; the
    model keeps the [Masks] and [Tiles] objects. *)
Record t : Type := mk {
  cls : Tile.SlideType;
  slide : option SlideBackend.t;
  name : option string;
  masks : option Masks.t;
  tiles : option Tiles.t;
  labels : option Py.ref;
  history : option (list string);
  tile_dataset : option TileDataset.t
}.

Definition set_tiles (self : t) (c : option Tiles.t) : t :=
  {| cls := cls self; slide := slide self; name := name self;
     masks := masks self; tiles := c; labels := labels self;
     history := history self; tile_dataset := tile_dataset self |}.

Definition set_tile_dataset (self : t) (d : option TileDataset.t) : t :=
  {| cls := cls self; slide := slide self; name := name self;
     masks := masks self; tiles := tiles self; labels := labels self;
     history := history self; tile_dataset := d |}.

(** [_create_tile_dataset(slidedata)]: [TileDataset(slidedata)], whose
    [__init__] keeps [slidedata.tiles] and [slidedata.labels]. *)
Definition _create_tile_dataset (slidedata : t) : TileDataset.t :=
  {| TileDataset.tiles := tiles slidedata;
     TileDataset.labels := labels slidedata |}.

(** *** [generate_tiles] *)

Definition already_has_mask : string :=
  "tile yielded from backend already has mask. slide_data.generate_tiles is trying to overwrite it".

(** The mask step of the loop body (lines 157-172). *)
Definition attach_masks (self : t) (pad : bool) (tile : Tile.t)
  : result Tile.t :=
  match masks self, Tile.coords tile with
  | Some slide_masks, Some (i, j) =>
      if negb pad then
        let '(di, dj) := Tile.shape01 (Tile.image tile) in
        n ← Tile.len_masks tile;
        assert (bool_decide (n = 0%nat)) already_has_mask;;
        let tile_slices :=
          (Slice i (i + Z.of_nat di), Slice j (j + Z.of_nat dj)) in
        Ok (Tile.set_masks tile (Some (Masks.slice slide_masks tile_slices)))
      else Ok tile
  | _, _ => Ok tile
  end.

(** The labels step (lines 175-176). *)
Definition attach_labels (self : t) (tile : Tile.t) : Tile.t :=
  match labels self with
  | Some l => Tile.set_labels tile (Some l)
  | None => tile
  end.

(** The slidetype step (lines 179-180). *)
Definition attach_slidetype (self : t) (tile : Tile.t) : Tile.t :=
  match Tile.slidetype tile with
  | None => Tile.set_slidetype tile (Some (cls self))
  | Some _ => tile
  end.

(** One turn of the loop of [generate_tiles], from the backend's tile to
    the [yield]. *)
Definition generate_tiles_body (self : t) (pad : bool) (tile : Tile.t)
  : result Tile.t :=
  tile ← attach_masks self pad tile;
  Ok (attach_slidetype self (attach_labels self tile)).

(** A finished generator: what it yielded and the exception that stopped
    it, if one did. *)
Record Generator : Type := mkGenerator {
  yields : list Tile.t;
  raised : option exn
}.

Fixpoint generate_tiles_loop (self : t) (pad : bool) (backend_tiles : list Tile.t)
  : Generator :=
  match backend_tiles with
  | [] => {| yields := []; raised := None |}
  | tile :: rest =>
      match generate_tiles_body self pad tile with
      | Raise e => {| yields := []; raised := Some e |}
      | Ok tile' =>
          let g := generate_tiles_loop self pad rest in
          {| yields := tile' :: yields g; raised := raised g |}
      end
  end.

(** [self.generate_tiles(shape, stride, pad, **kwargs)]: the loop over the
    tiles of the backend's generator (line 154); when the body has raised on
    none of them, the generator ends as the backend's generator ends. *)
Definition generate_tiles (self : t) (shape : SlideBackend.shape_arg)
    (stride : option Z) (pad : bool) (kwargs : gmap string Z) : Generator :=
  match slide self with
  | Some backend =>
      let source := SlideBackend.generate_tiles backend shape stride pad kwargs in
      let g := generate_tiles_loop self pad (SlideBackend.tiles source) in
      {| yields := yields g;
         raised := match raised g with
                   | Some e => Some e
                   | None => SlideBackend.error source
                   end |}
  | None =>
      {| yields := [];
         raised := Some (AttributeError
           "'NoneType' object has no attribute 'generate_tiles'") |}
  end.

(** *** [run] *)

(** What [run] can change: the aggregate itself, the dask clients created
    and the jobs handed to a client, in submission order. *)
Record World : Type := mkWorld {
  self_ : t;
  clients_created : nat;
  submitted : list (Dask.Client * Tile.t)
}.

(** Computations of [run]: the outcome and the world left behind.  A raised
    exception leaves the world as it was when it was raised. *)
Definition M (A : Type) : Type := World -> result A * World.

#[global] Instance M_ret : MRet M := fun _ a w => (Ok a, w).
#[global] Instance M_bind : MBind M := fun _ _ k m w =>
  match m w with
  | (Ok a, w') => k a w'
  | (Raise e, w') => (Raise e, w')
  end.

Definition raise {A} (e : exn) : M A := fun w => (Raise e, w).

Definition lift {A} (r : result A) : M A := fun w => (r, w).

Definition get_self : M t := fun w => (Ok (self_ w), w).

Definition put_self (self : t) : M unit := fun w =>
  (Ok tt, {| self_ := self; clients_created := clients_created w;
             submitted := submitted w |}).

(** [dask.distributed.Client()] *)
Definition new_client : M Dask.Client := fun w =>
  (Ok (Dask.mkClient (clients_created w)),
   {| self_ := self_ w; clients_created := S (clients_created w);
      submitted := submitted w |}).

(** [client.submit(pipeline.apply, tile)] *)
Definition client_submit (client : Dask.Client) (pipeline : Pipeline.t)
    (tile : Tile.t) : M Dask.Future := fun w =>
  (Ok {| Dask.key := length (submitted w);
         Dask.outcome := Pipeline.apply pipeline tile |},
   {| self_ := self_ w; clients_created := clients_created w;
      submitted := submitted w ++ [(client, tile)] |}).

(** [self.tiles.add(tile)] *)
Definition tiles_add (tile : Tile.t) : M unit :=
  self ← get_self;
  match tiles self with
  | Some c => put_self (set_tiles self (Some (Tiles.add c tile)))
  | None => raise (AttributeError "'NoneType' object has no attribute 'add'")
  end.

(** The submission loop (lines 105-109) over the tiles the generator
    yields; the futures are appended to [processed_tile_futures]. *)
Fixpoint submit_loop (client : Dask.Client) (pipeline : Pipeline.t)
    (tiles_yielded : list Tile.t) (processed_tile_futures : list Dask.Future)
  : M (list Dask.Future) :=
  match tiles_yielded with
  | [] => mret processed_tile_futures
  | tile :: rest =>
      f ← client_submit client pipeline tile;
      submit_loop client pipeline rest (processed_tile_futures ++ [f])
  end.

(** The collection loop (lines 112-113) over the futures in completion
    order; with [with_results = True] a failed job raises its exception
    when its turn comes. *)
Fixpoint collect_loop (completed : list Dask.Future) : M unit :=
  match completed with
  | [] => mret tt
  | future :: rest =>
      tile ← lift (Dask.outcome future);
      tiles_add tile;;
      collect_loop rest
  end.

Definition slide_is_none : string :=
  "cannot run pipeline because self.slide is None".

Definition already_has_tiles : exn :=
  Exception
    "Slide already has tiles. Running the pipeline will overwrite the existing tiles.use overwrite_existing_tiles=True to force overwriting existing tiles.".

(** The checks that open [run] (lines 88-99): the two assertions, then the
    [tiles] attribute is set to a new container, or the call fails. *)
Definition run_checks (pipeline : Pipeline.arg)
    (overwrite_existing_tiles : bool) : M Pipeline.t :=
  pipeline ← match pipeline with
             | Pipeline.IsPipeline p => mret p
             | Pipeline.NotPipeline ty =>
                 raise (AssertionError
                   ("pipeline is of type " +:+ ty +:+
                    " but must be of type pathml.preprocessing.pipeline.Pipeline"))
             end;
  self ← get_self;
  lift (assert (bool_decide (slide self <> None)) slide_is_none);;
  match tiles self with
  | None => put_self (set_tiles self (Some Tiles.empty))
  | Some _ =>
      if overwrite_existing_tiles
      then put_self (set_tiles self (Some Tiles.empty))
      else raise already_has_tiles
  end;;
  mret pipeline.

(** Dispatch and collection (lines 101-116): the client, one job per tile
    of the generator, the results folded into [self.tiles] as they arrive,
    and the dataset. *)
Definition run_dispatch (pipeline : Pipeline.t) (client : option Dask.Client)
    (tile_size : Z) (tile_stride : option Z) (level : Z) (tile_pad : bool)
    (sched : list nat) : M unit :=
  client ← match client with
           | None => new_client
           | Some c => mret c
           end;
  self ← get_self;
  let g := generate_tiles self (SlideBackend.Square tile_size) tile_stride
             tile_pad {[ "level" := level ]} in
  processed_tile_futures ← submit_loop client pipeline (yields g) [];
  match raised g with
  | Some e => raise e
  | None => mret tt
  end;;
  collect_loop (Dask.as_completed sched processed_tile_futures);;
  self ← get_self;
  put_self (set_tile_dataset self (Some (_create_tile_dataset self))).

(** [self.run(pipeline, client, tile_size, tile_stride, level, tile_pad,
    overwrite_existing_tiles)]; [sched] is the order in which the pool
    completes the jobs. *)
Definition run (pipeline : Pipeline.arg) (client : option Dask.Client)
    (tile_size : Z) (tile_stride : option Z) (level : Z) (tile_pad : bool)
    (overwrite_existing_tiles : bool) (sched : list nat) : M unit :=
  pipeline ← run_checks pipeline overwrite_existing_tiles;
  run_dispatch pipeline client tile_size tile_stride level tile_pad sched.

(** *** Worlds that [run] leaves behind, for the statements below *)

(** [w] with [self.tiles] bound to the container [c]. *)
Definition with_tiles (c : Tiles.t) (w : World) : World :=
  {| self_ := set_tiles (self_ w) (Some c);
     clients_created := clients_created w;
     submitted := submitted w |}.

(** The client that [run] uses: the one passed in, or a new one. *)
Definition client_used (client : option Dask.Client) (w : World) : Dask.Client :=
  match client with
  | Some c => c
  | None => Dask.mkClient (clients_created w)
  end.

(** [w] after the client was settled and one job per tile of [ts] was
    submitted to it. *)
Definition after_submit (client : option Dask.Client) (ts : list Tile.t)
    (w : World) : World :=
  {| self_ := self_ w;
     clients_created :=
       match client with
       | Some _ => clients_created w
       | None => S (clients_created w)
       end;
     submitted := submitted w ++ ((fun tile => (client_used client w, tile)) <$> ts) |}.

(** [w] with the dataset built from the current [tiles] and [labels]. *)
Definition with_dataset (w : World) : World :=
  {| self_ := set_tile_dataset (self_ w) (Some (_create_tile_dataset (self_ w)));
     clients_created := clients_created w;
     submitted := submitted w |}.

(** The generator that [run] iterates over. *)
Definition run_generator (self : t) (tile_size : Z) (tile_stride : option Z)
    (level : Z) (tile_pad : bool) : Generator :=
  generate_tiles self (SlideBackend.Square tile_size) tile_stride tile_pad
    {[ "level" := level ]}.

(** The result container is non-empty. *)
Definition populated (self : t) : Prop :=
  exists c, tiles self = Some c /\ Tiles.len c <> 0%nat.

End SlideData.

(** ** Concrete slides, used to run the model *)

Module Scenario.

Import SlideData.

Definition image (h w : nat) : Tile.Image :=
  {| Tile.shape01 := (h, w); Tile.channels := [3%nat]; Tile.pixels := [] |}.

(** A tile as a backend reads it from the image: no masks, no labels, no
    slidetype. *)
Definition raw_tile (i j : Z) : Tile.t :=
  {| Tile.image := image 4 4; Tile.coords := Some (i, j);
     Tile.masks := Some ∅; Tile.labels := None; Tile.slidetype := None |}.

(** Spec 8: a 10x10 image, shape 4, stride 4, without padding. *)
Definition grid : list Tile.t :=
  [raw_tile 0 0; raw_tile 0 4; raw_tile 4 0; raw_tile 4 4].

Definition square4 : SlideBackend.shape_arg := SlideBackend.Square 4.

Definition backend_of (tiles : list Tile.t) : SlideBackend.t :=
  {| SlideBackend.generate_tiles := fun _ _ _ _ =>
       {| SlideBackend.tiles := tiles; SlideBackend.error := None |} |}.

(** A backend whose generator yields two tiles and then fails. *)
Definition failing_backend : SlideBackend.t :=
  {| SlideBackend.generate_tiles := fun _ _ _ _ =>
       {| SlideBackend.tiles := [raw_tile 0 0; raw_tile 0 4];
          SlideBackend.error := Some (ValueError "level does not exist") |} |}.

Definition tumor : Masks.Mask :=
  {| Masks.shape := (10, 10)%nat;
     Masks.at_ := fun r c => Z.of_nat (10 * r + c) |}.

Definition slide_of (backend_tiles : list Tile.t) (masks : option Masks.t)
    (tiles : option Tiles.t) (labels : option Py.ref) : SlideData.t :=
  {| cls := "HESlide"; slide := Some (backend_of backend_tiles);
     name := Some "slide"; masks := masks; tiles := tiles;
     labels := labels; history := None; tile_dataset := None |}.

Definition he_slide : SlideData.t :=
  slide_of grid (Some {[ "tumor" := tumor ]}) None (Some 1%positive).

(** A mask at a coarser scale than the slide: 2x2. *)
Definition thumbnail : Masks.Mask :=
  {| Masks.shape := (2, 2)%nat;
     Masks.at_ := fun r c => Z.of_nat (2 * r + c) |}.

Definition thumbnail_slide : SlideData.t :=
  slide_of grid (Some {[ "tumor" := thumbnail ]}) None None.

(** A tile that comes from the backend with a mask of its own and a
    slidetype. *)
Definition masked_tile : Tile.t :=
  {| Tile.image := image 4 4; Tile.coords := Some (0, 0);
     Tile.masks := Some {[ "stroma" := tumor ]}; Tile.labels := None;
     Tile.slidetype := Some "MultiparametricSlide" |}.

Definition masked_slide : SlideData.t :=
  slide_of [raw_tile 0 4; masked_tile; raw_tile 4 4]
    (Some {[ "tumor" := tumor ]}) None (Some 1%positive).

(** The same slide without slide-level masks. *)
Definition unmasked_slide : SlideData.t :=
  slide_of [raw_tile 0 4; masked_tile; raw_tile 4 4]
    None None (Some 1%positive).

(** A backend that yields two tiles at the same coordinate. *)
Definition twin_slide : SlideData.t :=
  slide_of [raw_tile 0 0; raw_tile 0 0] None None None.

(** A slide whose backend yields no tile, as when the tile shape exceeds
    the image. *)
Definition blank_slide : SlideData.t := slide_of [] None None None.

(** A slide that already holds one processed tile. *)
Definition processed_slide : SlideData.t :=
  slide_of grid None (Some (Tiles.add Tiles.empty (raw_tile 8 8))) None.

(** A headless aggregate: no slide. *)
Definition headless : SlideData.t :=
  {| cls := "SlideData"; slide := None; name := None; masks := None;
     tiles := Some (Tiles.add Tiles.empty (raw_tile 8 8)); labels := None;
     history := None; tile_dataset := None |}.

(** A slide on the failing backend. *)
Definition failing_slide : SlideData.t :=
  {| cls := "HESlide"; slide := Some failing_backend; name := Some "slide";
     masks := Some {[ "tumor" := tumor ]}; tiles := None; labels := None;
     history := None; tile_dataset := None |}.

Definition world_of (self : SlideData.t) : World :=
  {| self_ := self; clients_created := 0; submitted := [] |}.

(** A pipeline that returns its tile as it is. *)
Definition identity : Pipeline.t := {| Pipeline.apply := fun tile => Ok tile |}.

(** A pipeline whose job fails on the tile at row 4, column 0. *)
Definition fails_at_4_0 : Pipeline.t :=
  {| Pipeline.apply := fun tile =>
       if bool_decide (Tile.coords tile = Some (4, 0))
       then Raise (ValueError "job failed")
       else Ok tile |}.

End Scenario.

(** ** Conditions on a call of [run], for the statements below *)

Module RunSpec.

Import SlideData.

(** The opening checks of [run] (lines 88-99) let the call through: the
    argument is a pipeline, there is a slide, and there are no tiles or
    overwriting was asked for. *)
Definition checks_pass (pipeline : Pipeline.arg) (overwrite : bool) (self : t)
  : Prop :=
  (exists p, pipeline = Pipeline.IsPipeline p) /\
  slide self <> None /\
  (tiles self = None \/ overwrite = true).

(** All attributes but [tiles] and [tile_dataset] agree. *)
Definition same_slide (a b : t) : Prop :=
  cls a = cls b /\ slide a = slide b /\ name a = name b /\
  masks a = masks b /\ labels a = labels b /\ history a = history b.

(** Every job of the pipeline on the tiles succeeds. *)
Definition jobs_succeed (pipeline : Pipeline.arg) (ts : list Tile.t) : Prop :=
  exists p, pipeline = Pipeline.IsPipeline p /\
    Forall (fun tile => exists tile', Pipeline.apply p tile = Ok tile') ts.

End RunSpec.

(** ** [SlideData.__init__] (lines 28-58) *)

Module Init.

(** An h5py group; what it holds plays no part in the constructor. *)
Record H5Group : Type := mkH5Group { group_name : string }.

(** The [masks] argument: [None], a [Masks] object, an h5py group, or an
    object of another type, of which [type(masks)] is kept. *)
Inductive masks_arg : Type :=
| MasksNone
| MasksObject (m : Masks.t)
| MasksGroup (g : H5Group)
| MasksOther (type_name : string).

(** The [tiles] argument, likewise. *)
Inductive tiles_arg : Type :=
| TilesNone
| TilesObject (c : Tiles.t)
| TilesGroup (g : H5Group)
| TilesOther (type_name : string).

(** The [labels] argument: [None], a dict, or an object of another type. *)
Inductive labels_arg : Type :=
| LabelsNone
| LabelsDict (l : Py.ref)
| LabelsOther (type_name : string).

(** A Python class: whether it is a subclass of
    [pathml.core.slide_backends.SlideBackend], what calling it on a path
    returns or raises, and [type(cls)] for the message of the assertion. *)
Record PyClass : Type := mkClass {
  class_name : string;
  metaclass_name : string;
  is_slide_backend : bool;
  call : string -> result SlideBackend.t
}.

(** The [slide_backend] argument: [None], a class, or an object that is not
    a class, on which [issubclass] raises [TypeError]. *)
Inductive backend_arg : Type :=
| BackendNone
| BackendClass (c : PyClass)
| BackendNotAClass (type_name : string).

(** The attributes that [__init__] sets (lines 51-58). *)
Record t : Type := mk {
  slide : option SlideBackend.t;
  slide_backend : option PyClass;
  name : option string;
  masks : masks_arg;
  tiles : tiles_arg;
  labels : labels_arg;
  history : option (list string);
  tile_dataset : option TileDataset.t
}.

Section constructor.

(** [pathml.core.slide_backends.OpenSlideBackend], which is not among the
    sources, and [Path(filepath).stem] of the standard library. *)
Variables (OpenSlideBackend : PyClass) (stem : string -> string).

(** The four assertions (lines 30-37), in order. *)
Definition check_inputs (slide_backend : backend_arg) (masks : masks_arg)
    (tiles : tiles_arg) (labels : labels_arg) : result unit :=
  match masks with
  | MasksOther ty =>
      Raise (AssertionError
        ("mask are of type " +:+ ty +:+ " but must be type Masks or h5 group"))
  | _ => Ok tt
  end;;
  match labels with
  | LabelsOther ty =>
      Raise (AssertionError
        ("labels are of type " +:+ ty +:+
         " but must be of type dict. array-like labels should be stored in masks."))
  | _ => Ok tt
  end;;
  match tiles with
  | TilesOther ty =>
      Raise (AssertionError
        ("tiles are of type " +:+ ty +:+
         " but must be of type pathml.core.tiles.Tiles"))
  | _ => Ok tt
  end;;
  match slide_backend with
  | BackendNone => Ok tt
  | BackendClass c =>
      assert (is_slide_backend c)
        ("slide_backend is of type " +:+ metaclass_name c +:+
         " but must be a subclass of pathml.core.slide_backends.SlideBackend")
  | BackendNotAClass ty => Raise (TypeError "issubclass() arg 1 must be a class")
  end.

(** [SlideData(filepath, name, slide_backend, masks, tiles, labels,
    history)] *)
Definition __init__ (filepath : option string) (name : option string)
    (slide_backend : backend_arg) (masks : masks_arg) (tiles : tiles_arg)
    (labels : labels_arg) (history : option (list string)) : result t :=
  check_inputs slide_backend masks tiles labels;;
  let slide_backend :=
    match slide_backend with
    | BackendClass c => Some c
    | _ => None
    end in
  '(slide, slide_backend) ←
    match filepath with
    | Some path =>
        let slide_backend :=
          match slide_backend with
          | None => OpenSlideBackend
          | Some c => c
          end in
        slide ← call slide_backend path;
        Ok (Some slide, Some slide_backend)
    | None => Ok (None, slide_backend)
    end;
  let name :=
    match name, filepath with
    | None, Some path => Some (stem path)
    | _, _ => name
    end in
  Ok {| slide := slide; slide_backend := slide_backend; name := name;
        masks := masks; tiles := tiles; labels := labels;
        history := history; tile_dataset := None |}.

End constructor.

(** The attributes as the model of [generate_tiles] and [run] reads them,
    for an object of class [cls] whose [masks] and [tiles] are not h5py
    groups. *)
Definition aggregate (cls : Tile.SlideType) (a : t) : option SlideData.t :=
  masks ← match masks a with
          | MasksNone => Some None
          | MasksObject m => Some (Some m)
          | _ => None
          end;
  tiles ← match tiles a with
          | TilesNone => Some None
          | TilesObject c => Some (Some c)
          | _ => None
          end;
  labels ← match labels a with
           | LabelsNone => Some None
           | LabelsDict l => Some (Some l)
           | LabelsOther _ => None
           end;
  Some {| SlideData.cls := cls; SlideData.slide := slide a;
          SlideData.name := name a; SlideData.masks := masks;
          SlideData.tiles := tiles; SlideData.labels := labels;
          SlideData.history := history a;
          SlideData.tile_dataset := tile_dataset a |}.

(** The arguments pass the four checks. *)
Definition well_typed (slide_backend : backend_arg) (masks : masks_arg)
    (tiles : tiles_arg) (labels : labels_arg) : Prop :=
  (forall ty, masks <> MasksOther ty) /\
  (forall ty, labels <> LabelsOther ty) /\
  (forall ty, tiles <> TilesOther ty) /\
  (forall ty, slide_backend <> BackendNotAClass ty) /\
  (forall c, slide_backend = BackendClass c -> is_slide_backend c = true).

(** The class that opens the slide: the one passed in, or the default. *)
Definition backend_used (OpenSlideBackend : PyClass) (slide_backend : backend_arg)
  : PyClass :=
  match slide_backend with
  | BackendClass c => c
  | _ => OpenSlideBackend
  end.

End Init.

(** ** Concrete constructor calls *)

Module InitScenario.

Import Scenario.

(** A backend class that opens every path as the 4-tile grid. *)
Definition GridBackend : Init.PyClass :=
  {| Init.class_name := "GridBackend"; Init.metaclass_name := "<class 'type'>";
     Init.is_slide_backend := true;
     Init.call := fun _ => Ok (backend_of grid) |}.

(** The default backend; it finds no file at the path [missing.svs]. *)
Definition OpenSlide : Init.PyClass :=
  {| Init.class_name := "OpenSlideBackend";
     Init.metaclass_name := "<class 'type'>"; Init.is_slide_backend := true;
     Init.call := fun path =>
       if bool_decide (path = "missing.svs")
       then Raise (Exception "unsupported or missing image file")
       else Ok (backend_of [raw_tile 0 0]) |}.

(** [Path(filepath).stem] on the paths used below. *)
Definition stem (path : string) : string :=
  if bool_decide (path = "data/slide_1.svs") then "slide_1" else path.

(** A class that is no slide backend. *)
Definition NotABackend : Init.PyClass :=
  {| Init.class_name := "dict"; Init.metaclass_name := "<class 'type'>";
     Init.is_slide_backend := false;
     Init.call := fun _ => Raise (TypeError "not a backend") |}.

End InitScenario.

(** * Properties *)

(** ** Slices *)

Lemma adjust_inside (bound : Z) (len : nat) :
  0 <= bound <= Z.of_nat len -> Py.adjust bound len = Z.to_nat bound.
Proof.
  intros [Hlo Hhi]. unfold Py.adjust.
  destruct (Z.ltb_spec bound 0) as [Hneg | _]; [lia |].
  by rewrite Z.min_l.
Qed.

Lemma slice_range_inside (i : Z) (d len : nat) :
  0 <= i -> i + Z.of_nat d <= Z.of_nat len ->
  Py.slice_range (Slice i (i + Z.of_nat d)) len = (Z.to_nat i, d).
Proof.
  intros Hi Hd. unfold Py.slice_range. cbn [Py.start Py.stop].
  rewrite !adjust_inside; [| lia | lia]. f_equal. lia.
Qed.

Lemma getitem_inside (m : Masks.Mask) (i j : Z) (di dj : nat) :
  Masks.covers m i j di dj ->
  Masks.getitem m (Slice i (i + Z.of_nat di), Slice j (j + Z.of_nat dj))
  = {| Masks.shape := (di, dj);
       Masks.at_ := fun r c =>
         Masks.at_ m (Z.to_nat i + r)%nat (Z.to_nat j + c)%nat |}.
Proof.
  intros (Hi & Hdi & Hj & Hdj). unfold Masks.getitem. cbn [fst snd].
  by rewrite !slice_range_inside.
Qed.

Lemma slice_dom (ms : Masks.t) (sl : Py.slice * Py.slice) :
  dom (Masks.slice ms sl) = dom ms.
Proof. unfold Masks.slice. apply dom_fmap_L. Qed.

Lemma slice_lookup (ms : Masks.t) (sl : Py.slice * Py.slice) (key : string) :
  Masks.slice ms sl !! key = (fun m => Masks.getitem m sl) <$> ms !! key.
Proof. unfold Masks.slice. apply lookup_fmap. Qed.

(** ** The loop body of [generate_tiles] *)

Section generate_tiles_body.

Import SlideData.

Variables (self : SlideData.t) (pad : bool).

Lemma attach_labels_frame (tile : Tile.t) :
  Tile.image (attach_labels self tile) = Tile.image tile /\
  Tile.coords (attach_labels self tile) = Tile.coords tile /\
  Tile.masks (attach_labels self tile) = Tile.masks tile /\
  Tile.slidetype (attach_labels self tile) = Tile.slidetype tile.
Proof. unfold attach_labels. by destruct (labels self). Qed.

Lemma attach_slidetype_frame (tile : Tile.t) :
  Tile.image (attach_slidetype self tile) = Tile.image tile /\
  Tile.coords (attach_slidetype self tile) = Tile.coords tile /\
  Tile.masks (attach_slidetype self tile) = Tile.masks tile /\
  Tile.labels (attach_slidetype self tile) = Tile.labels tile.
Proof. unfold attach_slidetype. by destruct (Tile.slidetype tile). Qed.

(** The mask step either leaves the tile as it is, or finds the tile
    without masks and attaches the slice. *)
Lemma attach_masks_inv (tile tile1 : Tile.t) :
  attach_masks self pad tile = Ok tile1 ->
  (tile1 = tile /\
   (pad = true \/ Tile.coords tile = None \/ masks self = None)) \/
  (exists slide_masks i j old,
     pad = false /\ masks self = Some slide_masks /\
     Tile.coords tile = Some (i, j) /\
     Tile.masks tile = Some old /\ Masks.len old = 0%nat /\
     let '(di, dj) := Tile.shape01 (Tile.image tile) in
     tile1 = Tile.set_masks tile (Some (Masks.slice slide_masks
               (Slice i (i + Z.of_nat di), Slice j (j + Z.of_nat dj))))).
Proof.
  unfold attach_masks.
  destruct (masks self) as [slide_masks|] eqn:Hm; [| intros [= <-]; auto].
  destruct (Tile.coords tile) as [[i j]|] eqn:Hc; [| intros [= <-]; auto].
  destruct pad; cbn [negb]; [intros [= <-]; auto |].
  destruct (Tile.shape01 (Tile.image tile)) as [di dj] eqn:Hs.
  unfold Tile.len_masks.
  destruct (Tile.masks tile) as [old|] eqn:Hold; [| done].
  cbn. case_bool_decide as Hn; cbn; [| done].
  intros [= <-]. right. exists slide_masks, i, j, old.
  auto 10.
Qed.

Lemma attach_masks_noop (tile : Tile.t) :
  pad = true \/ Tile.coords tile = None \/ masks self = None ->
  attach_masks self pad tile = Ok tile.
Proof.
  unfold attach_masks. intros [-> | [-> | ->]].
  - by destruct (masks self), (Tile.coords tile) as [[? ?]|].
  - by destruct (masks self).
  - done.
Qed.

Lemma body_inv (tile tile' : Tile.t) :
  generate_tiles_body self pad tile = Ok tile' ->
  exists tile1, attach_masks self pad tile = Ok tile1 /\
    tile' = attach_slidetype self (attach_labels self tile1).
Proof.
  unfold generate_tiles_body. cbn.
  destruct (attach_masks self pad tile) as [tile1|e]; cbn; [| done].
  intros [= <-]. eauto.
Qed.

Lemma attach_masks_frame (tile tile1 : Tile.t) :
  attach_masks self pad tile = Ok tile1 ->
  Tile.image tile1 = Tile.image tile /\
  Tile.coords tile1 = Tile.coords tile /\
  Tile.labels tile1 = Tile.labels tile /\
  Tile.slidetype tile1 = Tile.slidetype tile.
Proof.
  intros [[-> _] | (ms & i & j & old & _ & _ & _ & _ & _ & Heq)]%attach_masks_inv;
    [done |].
  destruct (Tile.shape01 (Tile.image tile)). by subst tile1.
Qed.

(** What the body never changes: pixel data and coordinate. *)
Lemma body_frame (tile tile' : Tile.t) :
  generate_tiles_body self pad tile = Ok tile' ->
  Tile.image tile' = Tile.image tile /\ Tile.coords tile' = Tile.coords tile.
Proof.
  intros (tile1 & H1 & ->)%body_inv.
  destruct (attach_masks_frame _ _ H1) as (Hi & Hc & _).
  destruct (attach_slidetype_frame (attach_labels self tile1)) as (-> & -> & _).
  destruct (attach_labels_frame tile1) as (-> & -> & _). auto.
Qed.

Lemma body_masks (tile tile' : Tile.t) :
  generate_tiles_body self pad tile = Ok tile' ->
  exists tile1, attach_masks self pad tile = Ok tile1 /\
    Tile.masks tile' = Tile.masks tile1.
Proof.
  intros (tile1 & H1 & ->)%body_inv. exists tile1. split; [done |].
  destruct (attach_slidetype_frame (attach_labels self tile1)) as (_ & _ & -> & _).
  by destruct (attach_labels_frame tile1) as (_ & _ & -> & _).
Qed.

(** A tile that went through the body with non-empty slide-level masks
    does not go through it again: the assertion guards the attachment. *)
Lemma body_not_twice (tile tile' : Tile.t) (slide_masks : Masks.t) :
  pad = false ->
  masks self = Some slide_masks ->
  Masks.len slide_masks <> 0%nat ->
  Tile.coords tile <> None ->
  generate_tiles_body self pad tile = Ok tile' ->
  generate_tiles_body self pad tile' = Raise (AssertionError already_has_mask).
Proof.
  intros Hpad Hmasks Hlen Hcoords Hbody.
  destruct (body_frame _ _ Hbody) as [_ Hc].
  destruct (body_masks _ _ Hbody) as (tile1 & Hattach & Hm).
  apply attach_masks_inv in Hattach as [[_ Hnoop] | Hsliced].
  { destruct Hnoop as [? | [? | ?]]; congruence. }
  destruct Hsliced as (ms & i & j & old & _ & Hms & Hij & _ & _ & Heq).
  assert (ms = slide_masks) as -> by congruence.
  destruct (Tile.shape01 (Tile.image tile)) as [di dj]. subst tile1. cbn in Hm.
  unfold generate_tiles_body, attach_masks, Tile.len_masks.
  rewrite Hmasks, Hc, Hij, Hpad, Hm. cbn.
  destruct (Tile.shape01 (Tile.image tile')). cbn.
  rewrite bool_decide_eq_false_2; [done |].
  unfold Masks.len, Masks.slice in *. by rewrite map_size_fmap.
Qed.

(** The [k]-th tile yielded is the [k]-th tile of the backend, after the
    body. *)
Lemma loop_yields_lookup (backend_tiles : list Tile.t) (k : nat) (tile' : Tile.t) :
  yields (generate_tiles_loop self pad backend_tiles) !! k = Some tile' ->
  exists tile, backend_tiles !! k = Some tile /\
    generate_tiles_body self pad tile = Ok tile'.
Proof.
  revert k. induction backend_tiles as [|tile rest IH]; intros k; cbn; [done |].
  destruct (generate_tiles_body self pad tile) as [t1|e] eqn:Hb; cbn; [| done].
  destruct k as [|k]; cbn.
  - intros [= <-]. eauto.
  - apply IH.
Qed.

(** The generator stops at the first tile on which the body raises. *)
Lemma loop_raises_at (before after : list Tile.t) (tile : Tile.t) (e : exn) :
  Forall (fun t => exists t', generate_tiles_body self pad t = Ok t') before ->
  generate_tiles_body self pad tile = Raise e ->
  raised (generate_tiles_loop self pad (before ++ tile :: after)) = Some e /\
  length (yields (generate_tiles_loop self pad (before ++ tile :: after)))
  = length before.
Proof.
  intros Hbefore Hraise.
  induction Hbefore as [|t before [t' Ht'] _ IH]; cbn.
  - by rewrite Hraise.
  - rewrite Ht'. cbn. destruct IH as [-> ->]. done.
Qed.

(** No tile is yielded once the body has raised. *)
Lemma loop_yields_bound (backend_tiles : list Tile.t) (k : nat) (tile : Tile.t) (e : exn) :
  backend_tiles !! k = Some tile ->
  generate_tiles_body self pad tile = Raise e ->
  (length (yields (generate_tiles_loop self pad backend_tiles)) <= k)%nat /\
  raised (generate_tiles_loop self pad backend_tiles) <> None.
Proof.
  revert k. induction backend_tiles as [|t rest IH]; intros k; cbn; [done |].
  destruct k as [|k]; cbn.
  - intros [= ->] ->. cbn. split; [lia | done].
  - intros Hk Hr. destruct (generate_tiles_body self pad t); cbn.
    + destruct (IH k Hk Hr). split; [lia | done].
    + split; [lia | done].
Qed.

(** The generator does not raise when the body raises on no tile. *)
Lemma loop_all_ok (backend_tiles : list Tile.t) :
  Forall (fun t => exists t', generate_tiles_body self pad t = Ok t') backend_tiles ->
  raised (generate_tiles_loop self pad backend_tiles) = None /\
  length (yields (generate_tiles_loop self pad backend_tiles))
  = length backend_tiles.
Proof.
  induction 1 as [|t rest [t' Ht'] _ [IH1 IH2]]; cbn; [done |].
  rewrite Ht'. cbn. by rewrite IH1, IH2.
Qed.

End generate_tiles_body.

Lemma generate_tiles_lookup (self : SlideData.t) shape stride pad kwargs
    (k : nat) (tile' : Tile.t) :
  SlideData.yields (SlideData.generate_tiles self shape stride pad kwargs) !! k
  = Some tile' ->
  exists backend tile,
    SlideData.slide self = Some backend /\
    SlideBackend.tiles (SlideBackend.generate_tiles backend shape stride pad kwargs) !! k
    = Some tile /\
    SlideData.generate_tiles_body self pad tile = Ok tile'.
Proof.
  unfold SlideData.generate_tiles.
  destruct (SlideData.slide self) as [backend|]; cbn; [| done].
  intros (tile & Hk & Hb)%loop_yields_lookup. eauto.
Qed.

(** ** Claims on [generate_tiles] *)

Section generate_tiles_claims.

Import SlideData.

Variables (self : SlideData.t) (shape : SlideBackend.shape_arg)
  (stride : option Z) (kwargs : gmap string Z).

(** C2, as amended.  With [pad = False], slide-level masks and a tile at
    coordinate (i, j) whose pixel data has extent (di, dj): the masks
    attached to the yielded tile are the slide-level masks sliced at
    [i, i+di) x [j, j+dj), with the same keys; for each mask whose extent
    contains that rectangle, the attached sub-region has shape (di, dj) and
    its entry (r, c) is the source's entry (i+r, j+c). *)
Theorem mask_coslicing (k : nat) (tile' : Tile.t) (slide_masks : Masks.t) (i j : Z) :
  yields (generate_tiles self shape stride false kwargs) !! k = Some tile' ->
  masks self = Some slide_masks ->
  Tile.coords tile' = Some (i, j) ->
  let di := fst (Tile.shape01 (Tile.image tile')) in
  let dj := snd (Tile.shape01 (Tile.image tile')) in
  exists attached,
    Tile.masks tile' = Some attached /\
    attached = Masks.slice slide_masks
                 (Slice i (i + Z.of_nat di), Slice j (j + Z.of_nat dj)) /\
    dom attached = dom slide_masks /\
    forall key src,
      slide_masks !! key = Some src ->
      Masks.covers src i j di dj ->
      exists sub,
        attached !! key = Some sub /\
        Masks.shape sub = (di, dj) /\
        forall r c, (r < di)%nat -> (c < dj)%nat ->
          Masks.at_ sub r c
          = Masks.at_ src (Z.to_nat i + r)%nat (Z.to_nat j + c)%nat.
Proof.
  intros (backend & tile & _ & _ & Hbody)%generate_tiles_lookup Hmasks Hcoords di dj.
  destruct (body_frame _ _ _ _ Hbody) as [Himg Hc].
  destruct (body_masks _ _ _ _ Hbody) as (tile1 & Hattach & Hm).
  apply attach_masks_inv in Hattach as [[_ Hnoop] | Hsliced].
  { destruct Hnoop as [? | [? | ?]]; congruence. }
  destruct Hsliced as (ms & i0 & j0 & old & _ & Hms & Hc0 & _ & _ & Heq).
  assert (ms = slide_masks) as -> by congruence.
  assert ((i0, j0) = (i, j)) as [= -> ->] by congruence.
  subst di dj. rewrite Himg.
  destruct (Tile.shape01 (Tile.image tile)) as [di dj]. cbn [fst snd].
  subst tile1. cbn in Hm.
  eexists. split; [exact Hm |]. split; [done |]. split; [apply slice_dom |].
  intros key src Hsrc Hcov.
  rewrite slice_lookup, Hsrc.
  exists (Masks.getitem src
            (Slice i (i + Z.of_nat di), Slice j (j + Z.of_nat dj))).
  split; [done |].
  rewrite (getitem_inside _ _ _ _ _ Hcov). cbn. done.
Qed.

(** C5.  Under [pad = True], or for a tile without coordinates, or for an
    aggregate without masks, the mask step returns the tile as it is
    without raising, and the yielded tile has the masks field of the tile
    the backend produced. *)
Theorem mask_attachment_noop (pad : bool) (k : nat) (tile' : Tile.t) :
  yields (generate_tiles self shape stride pad kwargs) !! k = Some tile' ->
  pad = true \/ Tile.coords tile' = None \/ masks self = None ->
  exists backend tile,
    slide self = Some backend /\
    SlideBackend.tiles (SlideBackend.generate_tiles backend shape stride pad kwargs) !! k
    = Some tile /\
    attach_masks self pad tile = Ok tile /\
    Tile.masks tile' = Tile.masks tile.
Proof.
  intros (backend & tile & Hslide & Hk & Hbody)%generate_tiles_lookup Hcond.
  exists backend, tile. split; [done |]. split; [done |].
  destruct (body_frame _ _ _ _ Hbody) as [_ Hc]. rewrite Hc in Hcond.
  pose proof (attach_masks_noop self pad tile Hcond) as Hnoop.
  split; [done |].
  destruct (body_masks _ _ _ _ Hbody) as (tile1 & Hattach & ->). congruence.
Qed.

(** C6.  With [pad = False] and slide-level masks, a tile that comes from
    the backend with coordinates and a non-empty masks mapping makes the
    body raise the assertion error: the tile is not yielded and its masks
    are not replaced; the generator raises, and it raises this very error
    when the tiles before pass. *)
Theorem attach_over_existing_masks_fails (backend : SlideBackend.t) (k : nat)
    (tile : Tile.t) (slide_masks old : Masks.t) (ij : Z * Z) :
  slide self = Some backend ->
  SlideBackend.tiles (SlideBackend.generate_tiles backend shape stride false kwargs) !! k
  = Some tile ->
  masks self = Some slide_masks ->
  Tile.coords tile = Some ij ->
  Tile.masks tile = Some old ->
  Masks.len old <> 0%nat ->
  let g := generate_tiles self shape stride false kwargs in
  generate_tiles_body self false tile = Raise (AssertionError already_has_mask) /\
  raised g <> None /\
  (length (yields g) <= k)%nat /\
  (Forall (fun t => exists t', generate_tiles_body self false t = Ok t')
     (take k (SlideBackend.tiles
                (SlideBackend.generate_tiles backend shape stride false kwargs))) ->
   raised g = Some (AssertionError already_has_mask) /\ length (yields g) = k).
Proof.
  intros Hslide Hk Hmasks Hcoords Hold Hlen g.
  assert (generate_tiles_body self false tile
          = Raise (AssertionError already_has_mask)) as Hraise.
  { unfold generate_tiles_body, attach_masks, Tile.len_masks.
    rewrite Hmasks, Hcoords, Hold. destruct ij as [i j]. cbn.
    destruct (Tile.shape01 (Tile.image tile)). cbn.
    by rewrite bool_decide_eq_false_2. }
  split; [done |]. subst g. unfold generate_tiles. rewrite Hslide. cbn.
  destruct (loop_yields_bound self false _ k tile _ Hk Hraise) as [Hle Hne].
  split; [by destruct (raised (generate_tiles_loop self false _)) |].
  split; [done |].
  intros Hbefore.
  rewrite <- (take_drop_middle _ k tile Hk).
  destruct (loop_raises_at self false _ (drop (S k)
    (SlideBackend.tiles
       (SlideBackend.generate_tiles backend shape stride false kwargs)))
    tile _ Hbefore Hraise) as [-> ->].
  split; [done |]. apply length_take_le. apply Nat.lt_le_incl.
  by eapply lookup_lt_Some.
Qed.

(** C7.  When the aggregate has labels, every yielded tile holds in its
    labels field the reference held by the aggregate: the same dict as the
    slide's in every store, for all tiles, so that what is written to the
    slide's dict is what each tile reads. *)
Theorem labels_shared_by_reference (pad : bool) (l : Py.ref) :
  labels self = Some l ->
  Forall (fun tile' =>
            Tile.labels tile' = Some l /\
            (forall st, Py.deref st (Tile.labels tile') = Py.deref st (labels self)) /\
            (forall st d, Py.deref (<[l := d]> st) (Tile.labels tile') = Some d))
         (yields (generate_tiles self shape stride pad kwargs)).
Proof.
  intros Hl. apply Forall_lookup. intros k tile' Hk.
  apply generate_tiles_lookup in Hk as (backend & tile & _ & _ & Hbody).
  apply body_inv in Hbody as (tile1 & _ & ->).
  destruct (attach_slidetype_frame self (attach_labels self tile1))
    as (_ & _ & _ & ->).
  unfold attach_labels. rewrite Hl. cbn.
  split; [done |]. split; [done |].
  intros st d. apply lookup_insert_eq.
Qed.

(** C10.  A tile that the backend yields without slidetype is yielded with
    the aggregate's type; a tile that has a slidetype keeps it. *)
Theorem slidetype_set_only_when_none (pad : bool) (k : nat) (tile' : Tile.t) :
  yields (generate_tiles self shape stride pad kwargs) !! k = Some tile' ->
  exists backend tile,
    slide self = Some backend /\
    SlideBackend.tiles (SlideBackend.generate_tiles backend shape stride pad kwargs) !! k
    = Some tile /\
    (Tile.slidetype tile = None -> Tile.slidetype tile' = Some (cls self)) /\
    (forall s, Tile.slidetype tile = Some s -> Tile.slidetype tile' = Some s).
Proof.
  intros (backend & tile & Hslide & Hk & Hbody)%generate_tiles_lookup.
  exists backend, tile. split; [done |]. split; [done |].
  apply body_inv in Hbody as (tile1 & Hattach & ->).
  destruct (attach_masks_frame _ _ _ _ Hattach) as (_ & _ & _ & Hst).
  destruct (attach_labels_frame self tile1) as (_ & _ & _ & Hst').
  unfold attach_slidetype. rewrite Hst', Hst.
  split.
  - intros Hnone. rewrite Hnone. cbn. done.
  - intros s Hs. rewrite Hs. cbn. by rewrite Hst', Hst.
Qed.

End generate_tiles_claims.

(** ** Completion order *)

Section as_completed.

Context {A B : Type}.

(** The futures that complete are the futures that were submitted. *)
Lemma as_completed_perm (sched : list nat) (pending : list A) :
  Dask.as_completed sched pending ≡ₚ pending.
Proof.
  revert pending. induction sched as [|k sched IH]; intros pending; cbn; [done |].
  destruct (pending !! (k mod length pending)%nat) as [x|] eqn:Hk.
  - rewrite IH. symmetry. by apply delete_Permutation.
  - destruct pending as [|y pending]; [done |].
    apply lookup_ge_None in Hk. cbn [length] in Hk.
    pose proof (Nat.mod_upper_bound k (S (length pending))). lia.
Qed.

Lemma as_completed_length (sched : list nat) (pending : list A) :
  length (Dask.as_completed sched pending) = length pending.
Proof. by rewrite as_completed_perm. Qed.

(** The order does not look at what the futures hold. *)
Lemma as_completed_fmap (f : A -> B) (sched : list nat) (pending : list A) :
  Dask.as_completed sched (f <$> pending) = f <$> Dask.as_completed sched pending.
Proof.
  revert pending. induction sched as [|k sched IH]; intros pending; cbn; [done |].
  rewrite length_fmap, list_lookup_fmap.
  destruct (pending !! (k mod length pending)%nat) as [x|] eqn:Hk; cbn; [| done].
  f_equal. rewrite <- IH. f_equal.
  generalize (k mod length pending)%nat. clear.
  induction pending as [|y pending IH]; intros [|n]; cbn; try done.
  by rewrite IH.
Qed.

(** Every arrival order is the order of some schedule. *)
Lemma as_completed_any_order (pending arrival : list A) :
  arrival ≡ₚ pending ->
  exists sched, Dask.as_completed sched pending = arrival.
Proof.
  revert pending. induction arrival as [|x arrival IH]; intros pending Hperm.
  - apply Permutation_nil_l in Hperm as ->. by exists [].
  - assert (x ∈ pending) as Hin by (rewrite <- Hperm; left).
    apply list_elem_of_lookup in Hin as [k Hk].
    pose proof (lookup_lt_Some _ _ _ Hk) as Hlt.
    destruct (IH (delete k pending)) as [sched Hsched].
    { apply (inj (cons x)). etrans; [exact Hperm |]. by apply delete_Permutation. }
    exists (k :: sched). cbn.
    rewrite Nat.mod_small by done. by rewrite Hk, Hsched.
Qed.

End as_completed.

(** ** The tiles container *)

Lemma outcomes_split {A} (l : list (result A)) :
  (exists ts, l = Ok <$> ts) \/
  (exists before e rest, l = (Ok <$> before) ++ Raise e :: rest).
Proof.
  induction l as [|[a|e] l IH].
  - left. by exists [].
  - destruct IH as [[ts ->] | (before & e & rest & ->)].
    + left. by exists (a :: ts).
    + right. by exists (a :: before), e, rest.
  - right. by exists [], e, l.
Qed.

Lemma add_all_entries (ts : list Tile.t) (c : Tiles.t) :
  Tiles.values (foldl Tiles.add c ts) = Tiles.values c ++ ts.
Proof.
  revert c. induction ts as [|tile ts IH]; intros c; cbn [foldl].
  - by rewrite app_nil_r.
  - rewrite IH. unfold Tiles.values, Tiles.add.
    rewrite fmap_app, <- app_assoc. done.
Qed.

Lemma add_all_values (ts : list Tile.t) :
  Tiles.values (foldl Tiles.add Tiles.empty ts) = ts.
Proof. by rewrite add_all_entries. Qed.

Lemma add_all_len (ts : list Tile.t) :
  Tiles.len (foldl Tiles.add Tiles.empty ts) = length ts.
Proof.
  rewrite <- (add_all_values ts) at 2.
  unfold Tiles.len, Tiles.values. by rewrite length_fmap.
Qed.

(** Positional lookup finds every entry at the place where it was added. *)
Lemma getitem_values (c : Tiles.t) (k : nat) (tile : Tile.t) :
  Tiles.values c !! k = Some tile -> Tiles.getitem c (Z.of_nat k) = Ok tile.
Proof.
  intros Hk. unfold Tiles.getitem.
  pose proof (lookup_lt_Some _ _ _ Hk) as Hlt.
  unfold Tiles.values in Hlt. rewrite length_fmap in Hlt.
  rewrite bool_decide_eq_true_2 by (unfold Tiles.len; lia).
  by rewrite Nat2Z.id, Hk.
Qed.

(** The keys of a container are free of duplicates and its sequential keys
    are below its length: this holds of the empty container and [add] keeps
    it. *)
Lemma add_keeps_keys_distinct (c : Tiles.t) (tile : Tile.t) :
  NoDup (Tiles.keys c) /\
  (forall n, Tiles.Seq n ∈ Tiles.keys c -> (n < length c)%nat) ->
  NoDup (Tiles.keys (Tiles.add c tile)) /\
  (forall n, Tiles.Seq n ∈ Tiles.keys (Tiles.add c tile) ->
             (n < length (Tiles.add c tile))%nat).
Proof.
  intros [Hnd Hseq]. unfold Tiles.keys, Tiles.add in *.
  rewrite fmap_app, length_app. cbn [fmap list_fmap fst length].
  assert (Tiles.Seq (length c) ∉ c.*1) as Hfresh.
  { intros Hin%Hseq. lia. }
  split.
  - apply NoDup_app. split; [done |]. split; [| apply NoDup_singleton].
    intros k Hk Hk'%list_elem_of_singleton. subst k.
    unfold Tiles.key_for, Tiles.keys in Hk.
    destruct (Tile.coords tile) as [[i j]|]; [| done].
    case_bool_decide; done.
  - intros n [Hin | Hin%list_elem_of_singleton]%elem_of_app.
    + apply Hseq in Hin. lia.
    + unfold Tiles.key_for in Hin.
      destruct (Tile.coords tile) as [[i j]|];
        [case_bool_decide |]; try done; injection Hin as ->; lia.
Qed.

(** Whatever tiles are added to the empty container, no two entries share a
    key. *)
Lemma add_all_keys_distinct (ts : list Tile.t) :
  NoDup (Tiles.keys (foldl Tiles.add Tiles.empty ts)).
Proof.
  cut (forall c : Tiles.t,
         NoDup (Tiles.keys c) /\
         (forall n, Tiles.Seq n ∈ Tiles.keys c -> (n < length c)%nat) ->
         NoDup (Tiles.keys (foldl Tiles.add c ts))).
  { intros Hall. apply Hall. split; [constructor |].
    by intros n ?%elem_of_nil. }
  induction ts as [|tile ts IH]; intros c Hc; cbn [foldl]; [by destruct Hc |].
  by apply IH, add_keeps_keys_distinct.
Qed.

(** ** The phases of [run] *)

Section run_phases.

Import SlideData.

(** Unfolds the operations of the monad in the goal. *)
Ltac run_unfold :=
  repeat (progress (unfold mbind, M_bind, mret, M_ret, lift, tiles_add,
                    get_self, put_self, raise, new_client; cbn)).

Lemma with_tiles_id (c : Tiles.t) (w : World) :
  tiles (self_ w) = Some c -> with_tiles c w = w.
Proof. destruct w as [[] ? ?]. cbn. by intros ->. Qed.

(** The generator does not read [self.tiles]. *)
Lemma run_generator_set_tiles (self : SlideData.t) (c : option Tiles.t)
    tile_size tile_stride level tile_pad :
  run_generator (set_tiles self c) tile_size tile_stride level tile_pad
  = run_generator self tile_size tile_stride level tile_pad.
Proof.
  assert (forall ts, generate_tiles_loop (set_tiles self c) tile_pad ts
                     = generate_tiles_loop self tile_pad ts) as Hloop.
  { induction ts as [|tile rest IH]; [done |].
    cbn [generate_tiles_loop].
    change (generate_tiles_body (set_tiles self c) tile_pad tile)
      with (generate_tiles_body self tile_pad tile).
    destruct (generate_tiles_body self tile_pad tile); [| done]. by rewrite IH. }
  unfold run_generator, generate_tiles. cbn [slide set_tiles].
  destruct (slide self) as [backend|]; [| done].
  cbn. by rewrite Hloop.
Qed.

(** The submission loop submits the tiles in order and returns one future
    per tile, holding the outcome of the pipeline on that tile. *)
Lemma submit_loop_spec (client : Dask.Client) (p : Pipeline.t)
    (ts : list Tile.t) (futures : list Dask.Future) (w : World) :
  exists futures',
    submit_loop client p ts futures w
    = (Ok futures',
       {| self_ := self_ w; clients_created := clients_created w;
          submitted := submitted w ++ ((fun tile => (client, tile)) <$> ts) |}) /\
    Dask.outcome <$> futures'
    = (Dask.outcome <$> futures) ++ (Pipeline.apply p <$> ts).
Proof.
  revert futures w. induction ts as [|tile ts IH]; intros futures w; cbn.
  - exists futures. rewrite !app_nil_r. by destruct w.
  - unfold mbind, M_bind. cbn.
    edestruct IH as (futures' & -> & Hout). exists futures'. cbn.
    rewrite Hout, fmap_app, <- !app_assoc. done.
Qed.

(** The collection loop, when every job that arrives has succeeded. *)
Lemma collect_loop_ok (completed : list Dask.Future) (ts : list Tile.t)
    (c : Tiles.t) (w : World) :
  Dask.outcome <$> completed = Ok <$> ts ->
  tiles (self_ w) = Some c ->
  collect_loop completed w = (Ok tt, with_tiles (foldl Tiles.add c ts) w).
Proof.
  revert ts c w. induction completed as [|f completed IH]; intros ts c w.
  - destruct ts; [| done]. intros _ Hc. cbn. by rewrite with_tiles_id.
  - destruct ts as [|tile ts]; [done |]. intros [= Hf Hrest] Hc.
    cbn. run_unfold. rewrite Hf. run_unfold. rewrite Hc. run_unfold.
    erewrite IH; [| exact Hrest | done]. done.
Qed.

(** The collection loop, when a job that arrives has failed: the results
    that arrived before are in the container, and the exception leaves the
    loop. *)
Lemma collect_loop_raise (completed : list Dask.Future)
    (before : list Tile.t) (e : exn) (rest : list (result Tile.t))
    (c : Tiles.t) (w : World) :
  Dask.outcome <$> completed = (Ok <$> before) ++ Raise e :: rest ->
  tiles (self_ w) = Some c ->
  collect_loop completed w = (Raise e, with_tiles (foldl Tiles.add c before) w).
Proof.
  revert before c w. induction completed as [|f completed IH]; intros before c w.
  - by destruct before.
  - destruct before as [|tile before]; intros [= Hf Hrest] Hc.
    + cbn. run_unfold. rewrite Hf. cbn. by rewrite with_tiles_id.
    + cbn. run_unfold. rewrite Hf. run_unfold. rewrite Hc. run_unfold.
      erewrite IH; [| exact Hrest | done]. done.
Qed.

(** The checks fail on an object that is not a pipeline. *)
Lemma run_checks_not_pipeline (ty : string) (overwrite : bool) (w : World) :
  exists msg,
    run_checks (Pipeline.NotPipeline ty) overwrite w
    = (Raise (AssertionError msg), w).
Proof. eexists. reflexivity. Qed.

(** The checks fail on an aggregate without slide. *)
Lemma run_checks_headless (pipeline : Pipeline.arg) (overwrite : bool) (w : World) :
  slide (self_ w) = None ->
  exists msg, run_checks pipeline overwrite w = (Raise (AssertionError msg), w).
Proof.
  intros Hslide. destruct pipeline as [p | ty]; [| apply run_checks_not_pipeline].
  exists slide_is_none. unfold run_checks. run_unfold.
  rewrite Hslide. done.
Qed.

(** The checks fail on an aggregate that has tiles, unless overwriting was
    asked for. *)
Lemma run_checks_has_tiles (p : Pipeline.t) (c : Tiles.t) (w : World) :
  slide (self_ w) <> None ->
  tiles (self_ w) = Some c ->
  run_checks (Pipeline.IsPipeline p) false w = (Raise already_has_tiles, w).
Proof.
  intros Hslide Hc. unfold run_checks. run_unfold.
  rewrite bool_decide_eq_true_2 by done. run_unfold. rewrite Hc. done.
Qed.

(** Otherwise the checks pass and leave a new, empty container. *)
Lemma run_checks_pass (p : Pipeline.t) (overwrite : bool) (w : World) :
  slide (self_ w) <> None ->
  tiles (self_ w) = None \/ overwrite = true ->
  run_checks (Pipeline.IsPipeline p) overwrite w
  = (Ok p, with_tiles Tiles.empty w).
Proof.
  intros Hslide Hreset. unfold run_checks. run_unfold.
  rewrite bool_decide_eq_true_2 by done. run_unfold.
  destruct (tiles (self_ w)) as [c|]; [| done].
  destruct Hreset as [? | ->]; done.
Qed.

Section dispatch.

Variables (p : Pipeline.t) (client : option Dask.Client)
  (tile_size : Z) (tile_stride : option Z) (level : Z) (tile_pad : bool)
  (sched : list nat) (w : World).

#[local] Abbreviation g :=
  (run_generator (self_ w) tile_size tile_stride level tile_pad).

(** What [run_dispatch] does up to the end of the submission loop. *)
Lemma run_dispatch_unfold :
  exists futures,
    Dask.outcome <$> futures = Pipeline.apply p <$> yields g /\
    run_dispatch p client tile_size tile_stride level tile_pad sched w
    = match raised g with
      | Some e => (Raise e, after_submit client (yields g) w)
      | None =>
          match collect_loop (Dask.as_completed sched futures)
                  (after_submit client (yields g) w) with
          | (Ok _, w') => (Ok tt, with_dataset w')
          | (Raise e, w') => (Raise e, w')
          end
      end.
Proof.
  set (gen := run_generator (self_ w) tile_size tile_stride level tile_pad).
  unfold run_dispatch.
  destruct (submit_loop_spec (client_used client w) p (yields gen) []
              (after_submit client [] w)) as (futures & Hsubmit & Hout).
  exists futures. split; [exact Hout |].
  assert (forall w0, self_ w0 = self_ w ->
            generate_tiles (self_ w0) (SlideBackend.Square tile_size)
              tile_stride tile_pad {[ "level" := level ]} = gen) as Hg.
  { intros w0 ->. done. }
  unfold after_submit in Hsubmit. cbn in Hsubmit.
  rewrite app_nil_r in Hsubmit.
  destruct client as [c|]; run_unfold.
  - rewrite (Hg w eq_refl). cbn in Hsubmit.
    replace w with {| self_ := self_ w; clients_created := clients_created w;
                      submitted := submitted w |} at 1 by (by destruct w).
    rewrite Hsubmit. unfold after_submit. cbn.
    destruct (raised gen); run_unfold; [done |].
    destruct (collect_loop _ _) as [[[] | e] w']; done.
  - rewrite (Hg w eq_refl). cbn in Hsubmit. rewrite Hsubmit.
    unfold after_submit. cbn.
    destruct (raised gen); run_unfold; [done |].
    destruct (collect_loop _ _) as [[[] | e] w']; done.
Qed.

Lemma run_dispatch_generator_raises (e : exn) :
  raised g = Some e ->
  run_dispatch p client tile_size tile_stride level tile_pad sched w
  = (Raise e, after_submit client (yields g) w).
Proof.
  intros Hraised. destruct run_dispatch_unfold as (futures & _ & ->).
  by rewrite Hraised.
Qed.

Lemma run_dispatch_ok (c : Tiles.t) (ts : list Tile.t) :
  tiles (self_ w) = Some c ->
  raised g = None ->
  Dask.as_completed sched (Pipeline.apply p <$> yields g) = Ok <$> ts ->
  run_dispatch p client tile_size tile_stride level tile_pad sched w
  = (Ok tt, with_dataset (with_tiles (foldl Tiles.add c ts)
                            (after_submit client (yields g) w))).
Proof.
  intros Hc Hraised Hts. destruct run_dispatch_unfold as (futures & Hout & ->).
  rewrite Hraised.
  rewrite <- Hout, as_completed_fmap in Hts.
  by rewrite (collect_loop_ok _ ts c).
Qed.

Lemma run_dispatch_job_raises (c : Tiles.t) (before : list Tile.t)
    (e : exn) (rest : list (result Tile.t)) :
  tiles (self_ w) = Some c ->
  raised g = None ->
  Dask.as_completed sched (Pipeline.apply p <$> yields g)
  = (Ok <$> before) ++ Raise e :: rest ->
  run_dispatch p client tile_size tile_stride level tile_pad sched w
  = (Raise e, with_tiles (foldl Tiles.add c before)
                (after_submit client (yields g) w)).
Proof.
  intros Hc Hraised Hts. destruct run_dispatch_unfold as (futures & Hout & ->).
  rewrite Hraised.
  rewrite <- Hout, as_completed_fmap in Hts.
  by rewrite (collect_loop_raise _ before e rest c).
Qed.

End dispatch.

End run_phases.

(** ** Claims on [run] *)

Section run_claims.

Import SlideData.

Variables (client : option Dask.Client) (tile_size : Z)
  (tile_stride : option Z) (level : Z) (tile_pad : bool).

(** [run] is its checks followed by dispatch and collection. *)
Lemma run_unfold (pipeline : Pipeline.arg) (overwrite : bool)
    (sched : list nat) (w : World) :
  run pipeline client tile_size tile_stride level tile_pad overwrite sched w
  = match run_checks pipeline overwrite w with
    | (Ok p, w1) =>
        run_dispatch p client tile_size tile_stride level tile_pad sched w1
    | (Raise e, w1) => (Raise e, w1)
    end.
Proof. done. Qed.

(** Dispatch never unbinds [self.tiles]. *)
Lemma run_dispatch_keeps_tiles (p : Pipeline.t) (sched : list nat)
    (w : World) (c : Tiles.t) :
  tiles (self_ w) = Some c ->
  tiles (self_ (run_dispatch p client tile_size tile_stride level tile_pad
                  sched w).2) <> None.
Proof.
  intros Hc.
  destruct (raised (run_generator (self_ w) tile_size tile_stride level tile_pad))
    as [e|] eqn:Hraised.
  { rewrite (run_dispatch_generator_raises _ _ _ _ _ _ _ _ e Hraised). cbn.
    by rewrite Hc. }
  destruct (outcomes_split (Dask.as_completed sched
    (Pipeline.apply p <$> yields (run_generator (self_ w) tile_size
       tile_stride level tile_pad))))
    as [[ts Hts] | (before & e & rest & Hts)].
  - by rewrite (run_dispatch_ok _ _ _ _ _ _ _ _ c ts Hc Hraised Hts).
  - by rewrite (run_dispatch_job_raises _ _ _ _ _ _ _ _ c before e rest Hc Hraised Hts).
Qed.

(** C9.  On an aggregate without slide, [run] raises an assertion error
    and leaves the world as it was: no attribute of the aggregate changes,
    no client is created and no job is submitted. *)
Theorem run_headless_fails (pipeline : Pipeline.arg) (overwrite : bool)
    (sched : list nat) (w : World) :
  slide (self_ w) = None ->
  exists msg,
    run pipeline client tile_size tile_stride level tile_pad overwrite sched w
    = (Raise (AssertionError msg), w).
Proof.
  intros Hslide. rewrite run_unfold.
  destruct (run_checks_headless pipeline overwrite w Hslide) as [msg ->].
  by exists msg.
Qed.

(** C1, as amended.  For a pipeline and an aggregate with a slide: without
    [overwrite_existing_tiles], [run] raises the already-has-tiles exception
    with the world untouched exactly when [self.tiles] is not [None],
    whether or not the container has entries; the exception comes from the
    checks, before a client is created or a tile is submitted.  With
    [overwrite_existing_tiles], the checks bind [self.tiles] to a new empty
    container, and dispatch starts from there. *)
Theorem run_refuses_existing_tiles (p : Pipeline.t) (sched : list nat) (w : World) :
  slide (self_ w) <> None ->
  (run (Pipeline.IsPipeline p) client tile_size tile_stride level tile_pad
     false sched w = (Raise already_has_tiles, w)
   <-> tiles (self_ w) <> None) /\
  (tiles (self_ w) <> None ->
   run_checks (Pipeline.IsPipeline p) false w = (Raise already_has_tiles, w)) /\
  run_checks (Pipeline.IsPipeline p) true w = (Ok p, with_tiles Tiles.empty w) /\
  tiles (self_ (with_tiles Tiles.empty w)) = Some Tiles.empty /\
  run (Pipeline.IsPipeline p) client tile_size tile_stride level tile_pad
    true sched w
  = run_dispatch p client tile_size tile_stride level tile_pad sched
      (with_tiles Tiles.empty w).
Proof.
  intros Hslide.
  assert (tiles (self_ w) <> None ->
          run_checks (Pipeline.IsPipeline p) false w
          = (Raise already_has_tiles, w)) as Hfail.
  { destruct (tiles (self_ w)) as [c|] eqn:Hc; [| done].
    intros _. by apply (run_checks_has_tiles p c). }
  split; [split |].
  - intros Hrun Hnone. rewrite run_unfold in Hrun.
    rewrite run_checks_pass in Hrun by auto.
    pose proof (run_dispatch_keeps_tiles p sched (with_tiles Tiles.empty w)
                  Tiles.empty eq_refl) as Hkeeps.
    rewrite Hrun in Hkeeps. cbn in Hkeeps. done.
  - intros Hsome. rewrite run_unfold. by rewrite Hfail.
  - split; [done |].
    rewrite run_unfold, !run_checks_pass by auto. done.
Qed.

(** C3.  When the generator yields N tiles and every job succeeds, [run]
    returns for every completion order; N jobs were submitted; the
    container holds the results in completion order, so N entries; and no
    two entries have the same key. *)
Theorem collection_in_completion_order (p : Pipeline.t) (overwrite : bool)
    (sched : list nat) (w : World) (results : list Tile.t) :
  slide (self_ w) <> None ->
  tiles (self_ w) = None \/ overwrite = true ->
  let g := run_generator (self_ w) tile_size tile_stride level tile_pad in
  raised g = None ->
  Pipeline.apply p <$> yields g = Ok <$> results ->
  exists c w',
    run (Pipeline.IsPipeline p) client tile_size tile_stride level tile_pad
      overwrite sched w = (Ok tt, w') /\
    submitted w'
    = submitted w ++ ((fun tile => (client_used client w, tile)) <$> yields g) /\
    tiles (self_ w') = Some c /\
    Tiles.values c = Dask.as_completed sched results /\
    Tiles.len c = length (yields g) /\
    NoDup (Tiles.keys c).
Proof.
  intros Hslide Hreset g Hraised Hresults.
  set (ts := Dask.as_completed sched results).
  exists (foldl Tiles.add Tiles.empty ts).
  eexists. rewrite run_unfold, run_checks_pass by done.
  assert (run_generator (self_ (with_tiles Tiles.empty w)) tile_size
            tile_stride level tile_pad = g) as Hg
    by apply run_generator_set_tiles.
  rewrite (run_dispatch_ok p client tile_size tile_stride level tile_pad sched
             (with_tiles Tiles.empty w) Tiles.empty ts eq_refl).
  - split; [reflexivity |]. rewrite Hg. cbn.
    split; [done |]. split; [done |].
    split; [apply add_all_values |].
    split.
    + rewrite add_all_len. unfold ts. rewrite as_completed_length.
      apply (f_equal length) in Hresults. by rewrite !length_fmap in Hresults.
    + apply add_all_keys_distinct.
  - by rewrite Hg.
  - rewrite Hg, Hresults. apply as_completed_fmap.
Qed.

(** C4.  When the generator has yielded its tiles and some job fails, then
    for every completion order [run] raises the exception of the first
    failed job to arrive; every tile was submitted once; the results that
    arrived before the failure are the entries of [self.tiles], each found
    by positional lookup; and no dataset is built. *)
Theorem job_failure_propagates (p : Pipeline.t) (overwrite : bool)
    (sched : list nat) (w : World) :
  slide (self_ w) <> None ->
  tiles (self_ w) = None \/ overwrite = true ->
  let g := run_generator (self_ w) tile_size tile_stride level tile_pad in
  raised g = None ->
  Exists (fun tile => exists e, Pipeline.apply p tile = Raise e) (yields g) ->
  exists before e rest c w',
    Dask.as_completed sched (Pipeline.apply p <$> yields g)
    = (Ok <$> before) ++ Raise e :: rest /\
    run (Pipeline.IsPipeline p) client tile_size tile_stride level tile_pad
      overwrite sched w = (Raise e, w') /\
    submitted w'
    = submitted w ++ ((fun tile => (client_used client w, tile)) <$> yields g) /\
    tiles (self_ w') = Some c /\
    Tiles.values c = before /\
    (forall k tile, before !! k = Some tile ->
                    Tiles.getitem c (Z.of_nat k) = Ok tile) /\
    tile_dataset (self_ w') = tile_dataset (self_ w).
Proof.
  intros Hslide Hreset g Hraised Hfails.
  destruct (outcomes_split (Dask.as_completed sched (Pipeline.apply p <$> yields g)))
    as [[ts Hts] | (before & e & rest & Hts)].
  { exfalso. apply Exists_exists in Hfails as (tile & Hin & e & He).
    assert (Raise e ∈ Ok <$> ts) as Hbad.
    { rewrite <- Hts, as_completed_perm, <- He. by apply list_elem_of_fmap_2. }
    apply list_elem_of_fmap in Hbad as (? & ? & _). done. }
  exists before, e, rest, (foldl Tiles.add Tiles.empty before).
  eexists. split; [done |].
  rewrite run_unfold, run_checks_pass by done.
  assert (run_generator (self_ (with_tiles Tiles.empty w)) tile_size
            tile_stride level tile_pad = g) as Hg
    by apply run_generator_set_tiles.
  rewrite (run_dispatch_job_raises p client tile_size tile_stride level tile_pad
             sched (with_tiles Tiles.empty w) Tiles.empty before e rest eq_refl).
  - split; [reflexivity |]. rewrite Hg. cbn. split; [done |]. split; [done |].
    split; [apply add_all_values |].
    split; [| done].
    intros k tile Hk. apply getitem_values. by rewrite add_all_values.
  - by rewrite Hg.
  - by rewrite Hg.
Qed.

(** C8.  After [run] has returned, [tile_dataset] is a view of
    [self.tiles] and [self.labels]: its length is the number of entries of
    the container; the entries are, in order, the outcomes of the jobs in
    completion order; and lookup at [ix] in [0..count-1] returns the tile
    [tiles[ix]] paired with the slide-level labels reference. *)
Theorem tile_dataset_view (pipeline : Pipeline.arg) (overwrite : bool)
    (sched : list nat) (w w' : World) :
  run pipeline client tile_size tile_stride level tile_pad overwrite sched w
  = (Ok tt, w') ->
  exists p c d,
    pipeline = Pipeline.IsPipeline p /\
    tiles (self_ w') = Some c /\
    tile_dataset (self_ w') = Some d /\
    TileDataset.__len__ d = Ok (Tiles.len c) /\
    Ok <$> Tiles.values c
    = Dask.as_completed sched
        (Pipeline.apply p <$>
           yields (run_generator (self_ w) tile_size tile_stride level tile_pad)) /\
    forall ix, 0 <= ix < Z.of_nat (Tiles.len c) ->
      exists tile,
        Tiles.getitem c ix = Ok tile /\
        Tiles.values c !! Z.to_nat ix = Some tile /\
        TileDataset.__getitem__ d ix = Ok (tile, labels (self_ w)).
Proof.
  intros Hrun. rewrite run_unfold in Hrun.
  destruct pipeline as [p | ty];
    [| by destruct (run_checks_not_pipeline ty overwrite w) as [msg Hmsg];
          rewrite Hmsg in Hrun].
  destruct (slide (self_ w)) as [backend|] eqn:Hslide;
    [| by destruct (run_checks_headless (Pipeline.IsPipeline p) overwrite w Hslide)
            as [msg Hmsg]; rewrite Hmsg in Hrun].
  assert (slide (self_ w) <> None) as Hsome by (by rewrite Hslide).
  assert (tiles (self_ w) = None \/ overwrite = true) as Hreset.
  { destruct (tiles (self_ w)) as [c0|] eqn:Hc0; [| by left].
    destruct overwrite; [by right |].
    by rewrite (run_checks_has_tiles p c0 w Hsome Hc0) in Hrun. }
  rewrite run_checks_pass in Hrun by done.
  set (g := run_generator (self_ w) tile_size tile_stride level tile_pad).
  assert (run_generator (self_ (with_tiles Tiles.empty w)) tile_size
            tile_stride level tile_pad = g) as Hg
    by apply run_generator_set_tiles.
  destruct (raised g) as [e|] eqn:Hraised.
  { rewrite (run_dispatch_generator_raises _ _ _ _ _ _ _ _ e) in Hrun; [done |].
    by rewrite Hg. }
  destruct (outcomes_split (Dask.as_completed sched (Pipeline.apply p <$> yields g)))
    as [[ts Hts] | (before & e & rest & Hts)].
  2:{ rewrite (run_dispatch_job_raises _ _ _ _ _ _ _ _ Tiles.empty before e rest)
        in Hrun; [done | done | by rewrite Hg | by rewrite Hg]. }
  rewrite (run_dispatch_ok _ _ _ _ _ _ _ _ Tiles.empty ts) in Hrun;
    [| done | by rewrite Hg | by rewrite Hg].
  injection Hrun as <-.
  exists p, (foldl Tiles.add Tiles.empty ts). eexists.
  split; [done |]. split; [reflexivity |]. split; [reflexivity |].
  split; [done |].
  split; [by rewrite add_all_values |].
  intros ix Hix.
  assert (is_Some (ts !! Z.to_nat ix)) as [tile Htile].
  { apply lookup_lt_is_Some. rewrite add_all_len in Hix. lia. }
  exists tile.
  assert (Tiles.getitem (foldl Tiles.add Tiles.empty ts) ix = Ok tile) as Hget.
  { rewrite <- (Z2Nat.id ix) by lia. apply getitem_values.
    by rewrite add_all_values. }
  split; [done |]. split; [by rewrite add_all_values |].
  unfold TileDataset.__getitem__. cbn. by rewrite Hget.
Qed.

End run_claims.

(** ** The claims on concrete slides *)

Section on_scenario.

Import SlideData Scenario.

Lemma mask_coslicing_witness :
  exists tile' attached sub,
    yields (generate_tiles he_slide square4 None false ∅) !! 1%nat = Some tile' /\
    masks he_slide = Some {[ "tumor" := tumor ]} /\
    Tile.coords tile' = Some (0, 4) /\
    Masks.covers tumor 0 4 4 4 /\
    Tile.masks tile' = Some attached /\
    dom attached = dom ({[ "tumor" := tumor ]} : Masks.t) /\
    attached !! "tumor" = Some sub /\
    Masks.shape sub = (4, 4)%nat /\
    Masks.at_ sub 1 1 = 15.
Proof.
  assert (Masks.covers tumor 0 4 4 4) as Hcov by (unfold Masks.covers; cbn; lia).
  edestruct (mask_coslicing he_slide square4 None ∅ 1)
    as (attached & Hm & _ & Hdom & Hsub); [reflexivity | reflexivity | reflexivity |].
  destruct (Hsub "tumor" tumor eq_refl Hcov) as (sub & Hk & Hshape & Hat).
  eexists _, attached, sub. repeat split; try done.
  rewrite (Hat 1%nat 1%nat); [reflexivity | cbn; lia | cbn; lia].
Defined.

(** C2 as stated fails: a 2x2 mask under a tile of extent 4x4 at (0, 0)
    gives an attached sub-region of shape (2, 2). *)
Lemma coslicing_shape_counterexample :
  exists tile' sub,
    yields (generate_tiles thumbnail_slide square4 None false ∅) !! 0%nat
    = Some tile' /\
    Tile.coords tile' = Some (0, 0) /\
    Tile.shape01 (Tile.image tile') = (4, 4)%nat /\
    Tile.masks tile' ≫= (fun m => m !! "tumor") = Some sub /\
    Masks.shape sub = (2, 2)%nat /\
    Masks.shape sub <> (4, 4)%nat.
Proof.
  eexists _, _. split; [reflexivity |]. split; [reflexivity |].
  split; [reflexivity |]. split; [vm_compute; reflexivity |].
  split; [reflexivity | discriminate].
Qed.

Lemma mask_attachment_noop_witness :
  exists tile' backend tile,
    yields (generate_tiles unmasked_slide square4 None false ∅) !! 1%nat
    = Some tile' /\
    (false = true \/ Tile.coords tile' = None \/ masks unmasked_slide = None) /\
    slide unmasked_slide = Some backend /\
    SlideBackend.tiles (SlideBackend.generate_tiles backend square4 None false ∅)
      !! 1%nat = Some tile /\
    attach_masks unmasked_slide false tile = Ok tile /\
    Tile.masks tile' = Tile.masks tile.
Proof.
  edestruct (mask_attachment_noop unmasked_slide square4 None ∅ false 1)
    as (backend & tile & Hslide & Hk & Hnoop & Hmasks);
    [reflexivity | right; right; reflexivity |].
  eexists _, backend, tile. repeat split; try done. right. right. reflexivity.
Defined.

Lemma attach_over_existing_masks_fails_witness :
  generate_tiles_body masked_slide false masked_tile
  = Raise (AssertionError already_has_mask) /\
  raised (generate_tiles masked_slide square4 None false ∅)
  = Some (AssertionError already_has_mask) /\
  length (yields (generate_tiles masked_slide square4 None false ∅)) = 1%nat.
Proof.
  destruct (attach_over_existing_masks_fails masked_slide square4 None ∅
              (backend_of [raw_tile 0 4; masked_tile; raw_tile 4 4]) 1
              masked_tile {[ "tumor" := tumor ]} {[ "stroma" := tumor ]} (0, 0)
              eq_refl eq_refl eq_refl eq_refl eq_refl)
    as (Hbody & _ & _ & Hgen).
  { unfold Masks.len. rewrite map_size_singleton. lia. }
  split; [exact Hbody |]. apply Hgen.
  repeat constructor. eexists. reflexivity.
Defined.

Lemma labels_shared_by_reference_witness :
  labels he_slide = Some 1%positive /\
  Forall (fun tile' =>
            Tile.labels tile' = Some 1%positive /\
            (forall st, Py.deref st (Tile.labels tile')
                        = Py.deref st (labels he_slide)) /\
            (forall st d, Py.deref (<[1%positive := d]> st) (Tile.labels tile')
                          = Some d))
         (yields (generate_tiles he_slide square4 None false ∅)).
Proof.
  split; [reflexivity |].
  apply (labels_shared_by_reference he_slide square4 None ∅ false 1%positive).
  reflexivity.
Defined.

Lemma slidetype_set_only_when_none_witness :
  exists tile0 tile1,
    yields (generate_tiles unmasked_slide square4 None false ∅) !! 0%nat
    = Some tile0 /\
    yields (generate_tiles unmasked_slide square4 None false ∅) !! 1%nat
    = Some tile1 /\
    Tile.slidetype tile0 = Some "HESlide" /\
    Tile.slidetype tile1 = Some "MultiparametricSlide".
Proof.
  edestruct (slidetype_set_only_when_none unmasked_slide square4 None ∅ false 0)
    as (backend0 & t0 & Hs0 & Hk0 & Hnone & _); [reflexivity |].
  edestruct (slidetype_set_only_when_none unmasked_slide square4 None ∅ false 1)
    as (backend1 & t1 & Hs1 & Hk1 & _ & Hkeep); [reflexivity |].
  injection Hs0 as <-. injection Hs1 as <-.
  injection Hk0 as <-. injection Hk1 as <-.
  eexists _, _. split; [reflexivity |]. split; [reflexivity |].
  split; [by apply Hnone | by apply Hkeep].
Defined.

Lemma run_headless_fails_witness :
  slide (self_ (world_of headless)) = None /\
  exists msg,
    run (Pipeline.IsPipeline identity) None 4 None 0 false true [] (world_of headless)
    = (Raise (AssertionError msg), world_of headless).
Proof.
  split; [reflexivity |].
  apply (run_headless_fails None 4 None 0 false (Pipeline.IsPipeline identity)
           true [] (world_of headless)).
  reflexivity.
Defined.

Lemma run_refuses_existing_tiles_witness :
  slide (self_ (world_of processed_slide)) <> None /\
  tiles (self_ (world_of processed_slide)) <> None /\
  run (Pipeline.IsPipeline identity) None 4 None 0 false false []
    (world_of processed_slide)
  = (Raise already_has_tiles, world_of processed_slide) /\
  run_checks (Pipeline.IsPipeline identity) true (world_of processed_slide)
  = (Ok identity, with_tiles Tiles.empty (world_of processed_slide)).
Proof.
  assert (slide (self_ (world_of processed_slide)) <> None) as Hslide by done.
  assert (tiles (self_ (world_of processed_slide)) <> None) as Htiles by done.
  destruct (run_refuses_existing_tiles None 4 None 0 false identity []
              (world_of processed_slide) Hslide)
    as (Hiff & _ & Hreset & _).
  split; [exact Hslide |]. split; [exact Htiles |].
  split; [by apply Hiff | exact Hreset].
Defined.

(** C1 as stated fails: a first [run] over a slide that yields no tile
    succeeds and leaves a tiles container without entries; the result
    container is then not non-empty, and a second [run] without
    [overwrite_existing_tiles] raises all the same. *)
Lemma run_empty_container_counterexample :
  exists w1,
    run (Pipeline.IsPipeline identity) None 4 None 0 false false []
      (world_of blank_slide) = (Ok tt, w1) /\
    tiles (self_ w1) = Some Tiles.empty /\
    ~ populated (self_ w1) /\
    run (Pipeline.IsPipeline identity) None 4 None 0 false false [] w1
    = (Raise already_has_tiles, w1).
Proof.
  eexists (run (Pipeline.IsPipeline identity) None 4 None 0 false false []
             (world_of blank_slide)).2.
  split; [vm_compute; reflexivity |]. split; [reflexivity |].
  split; [| reflexivity].
  intros (c & [= <-] & Hlen). by apply Hlen.
Qed.

Lemma collection_in_completion_order_witness :
  exists c w',
    slide (self_ (world_of he_slide)) <> None /\
    tiles (self_ (world_of he_slide)) = None /\
    raised (run_generator he_slide 4 None 0 false) = None /\
    run (Pipeline.IsPipeline identity) None 4 None 0 false false [2; 0; 1]%nat
      (world_of he_slide) = (Ok tt, w') /\
    length (submitted w') = 4%nat /\
    tiles (self_ w') = Some c /\
    Tiles.keys c
    = [Tiles.Coord 4 0; Tiles.Coord 0 0; Tiles.Coord 4 4; Tiles.Coord 0 4] /\
    Tiles.len c = 4%nat /\
    NoDup (Tiles.keys c).
Proof.
  destruct (collection_in_completion_order None 4 None 0 false identity false
              [2; 0; 1]%nat (world_of he_slide)
              (yields (run_generator he_slide 4 None 0 false)))
    as (c & w' & Hrun & Hsub & Hc & Hvalues & Hlen & Hkeys);
    [done | by left | reflexivity | reflexivity |].
  exists c, w'. split; [done |]. split; [reflexivity |]. split; [reflexivity |].
  split; [exact Hrun |].
  split; [rewrite Hsub; reflexivity |]. split; [exact Hc |].
  assert (c = foldl Tiles.add Tiles.empty (Tiles.values c)) as Hfold.
  { assert (Some c = Some (foldl Tiles.add Tiles.empty (Tiles.values c))) as [= ?];
      [| done].
    rewrite <- Hc, Hvalues.
    change w' with ((Ok tt : result unit, w').2). rewrite <- Hrun. reflexivity. }
  split; [rewrite Hfold, Hvalues; reflexivity |].
  split; [exact Hlen | exact Hkeys].
Defined.

(** Two tiles at coordinate (0, 0): both are kept, the second under a
    sequential key. *)
Example twin_tiles_get_distinct_keys :
  exists c w',
    run (Pipeline.IsPipeline identity) None 4 None 0 false false []
      (world_of twin_slide) = (Ok tt, w') /\
    tiles (self_ w') = Some c /\
    Tiles.len c = 2%nat /\
    Tiles.keys c = [Tiles.Coord 0 0; Tiles.Seq 1].
Proof.
  eexists _, (run (Pipeline.IsPipeline identity) None 4 None 0 false false []
                (world_of twin_slide)).2.
  split; [vm_compute; reflexivity |]. split; [reflexivity |].
  split; reflexivity.
Qed.

Lemma job_failure_propagates_witness :
  slide (self_ (world_of he_slide)) <> None /\
  tiles (self_ (world_of he_slide)) = None /\
  raised (run_generator he_slide 4 None 0 false) = None /\
  Exists (fun tile => exists e, Pipeline.apply fails_at_4_0 tile = Raise e)
    (yields (run_generator he_slide 4 None 0 false)) /\
  exists before e rest c w',
    Dask.as_completed [3; 0; 0; 0]%nat
      (Pipeline.apply fails_at_4_0 <$> yields (run_generator he_slide 4 None 0 false))
    = (Ok <$> before) ++ Raise e :: rest /\
    run (Pipeline.IsPipeline fails_at_4_0) None 4 None 0 false false
      [3; 0; 0; 0]%nat (world_of he_slide) = (Raise e, w') /\
    submitted w'
    = submitted (world_of he_slide)
      ++ ((fun tile => (client_used None (world_of he_slide), tile))
            <$> yields (run_generator he_slide 4 None 0 false)) /\
    tiles (self_ w') = Some c /\
    Tiles.values c = before /\
    (forall k tile, before !! k = Some tile ->
                    Tiles.getitem c (Z.of_nat k) = Ok tile) /\
    tile_dataset (self_ w') = tile_dataset (self_ (world_of he_slide)).
Proof.
  assert (Exists (fun tile => exists e, Pipeline.apply fails_at_4_0 tile = Raise e)
            (yields (run_generator he_slide 4 None 0 false))) as Hfails.
  { do 2 apply Exists_cons_tl. apply Exists_cons_hd. eexists. reflexivity. }
  split; [done |]. split; [reflexivity |]. split; [reflexivity |].
  split; [exact Hfails |].
  apply (job_failure_propagates None 4 None 0 false fails_at_4_0 false
           [3; 0; 0; 0]%nat (world_of he_slide));
    [done | by left | reflexivity | exact Hfails].
Defined.

Lemma tile_dataset_view_witness :
  exists w' p c d,
    run (Pipeline.IsPipeline identity) None 4 None 0 false false [2; 0; 1]%nat
      (world_of he_slide) = (Ok tt, w') /\
    Pipeline.IsPipeline identity = Pipeline.IsPipeline p /\
    tiles (self_ w') = Some c /\
    tile_dataset (self_ w') = Some d /\
    TileDataset.__len__ d = Ok (Tiles.len c) /\
    Ok <$> Tiles.values c
    = Dask.as_completed [2; 0; 1]%nat
        (Pipeline.apply p <$> yields (run_generator he_slide 4 None 0 false)) /\
    forall ix, 0 <= ix < Z.of_nat (Tiles.len c) ->
      exists tile,
        Tiles.getitem c ix = Ok tile /\
        Tiles.values c !! Z.to_nat ix = Some tile /\
        TileDataset.__getitem__ d ix = Ok (tile, labels he_slide).
Proof.
  set (out := run (Pipeline.IsPipeline identity) None 4 None 0 false false
                [2; 0; 1]%nat (world_of he_slide)).
  assert (out = (Ok tt, out.2)) as Hrun by (vm_compute; reflexivity).
  exists out.2.
  destruct (tile_dataset_view None 4 None 0 false (Pipeline.IsPipeline identity)
              false [2; 0; 1]%nat (world_of he_slide) out.2 Hrun)
    as (p & c & d & Hp & Hc & Hd & Hlen & Horder & Hget).
  exists p, c, d. repeat split; try done.
Defined.

End on_scenario.

(** * Further properties of [generate_tiles] (lines 134-182) *)

Section generate_tiles_more.

Import SlideData.

Variables (self : SlideData.t) (pad : bool).

(** When the loop raises, the tiles before the offending one were yielded
    and that one made the body raise; when it does not, every tile was
    yielded. *)
Lemma loop_outcome (backend_tiles : list Tile.t) :
  match raised (generate_tiles_loop self pad backend_tiles) with
  | Some e =>
      exists tile,
        backend_tiles !! length (yields (generate_tiles_loop self pad backend_tiles))
        = Some tile /\
        generate_tiles_body self pad tile = Raise e
  | None =>
      length (yields (generate_tiles_loop self pad backend_tiles))
      = length backend_tiles
  end.
Proof.
  induction backend_tiles as [|tile rest IH]; cbn; [done |].
  destruct (generate_tiles_body self pad tile) as [tile'|e] eqn:Hbody; cbn.
  - destruct (raised (generate_tiles_loop self pad rest)); [done |].
    by rewrite IH.
  - by exists tile.
Qed.

(** The body does not raise when the mask step is a no-op. *)
Lemma body_ok_without_mask_step (tile : Tile.t) :
  pad = true \/ Tile.coords tile = None \/ masks self = None ->
  generate_tiles_body self pad tile
  = Ok (attach_slidetype self (attach_labels self tile)).
Proof.
  intros Hnoop. unfold generate_tiles_body.
  by rewrite (attach_masks_noop self pad tile Hnoop).
Qed.

Lemma attach_labels_twice (tile : Tile.t) :
  attach_labels self (attach_slidetype self (attach_labels self tile))
  = attach_slidetype self (attach_labels self tile).
Proof.
  unfold attach_labels, attach_slidetype.
  destruct tile as [img c m l [s|]]; by destruct (labels self).
Qed.

Lemma attach_slidetype_twice (tile : Tile.t) :
  attach_slidetype self (attach_slidetype self tile) = attach_slidetype self tile.
Proof. unfold attach_slidetype. by destruct tile as [img c m l [s|]]. Qed.

Lemma loop_without_mask_step (backend_tiles : list Tile.t) :
  pad = true \/ masks self = None \/
    Forall (fun tile => Tile.coords tile = None) backend_tiles ->
  generate_tiles_loop self pad backend_tiles
  = {| yields := (fun tile => attach_slidetype self (attach_labels self tile))
                   <$> backend_tiles;
       raised := None |}.
Proof.
  intros Hnoop. induction backend_tiles as [|tile rest IH]; cbn; [done |].
  rewrite body_ok_without_mask_step.
  - rewrite IH; [done |].
    destruct Hnoop as [? | [? | Hall]]; auto.
    right. right. by apply Forall_cons in Hall as [_ ?].
  - destruct Hnoop as [? | [? | Hall]]; auto.
    right. left. by apply Forall_cons in Hall as [? _].
Qed.

End generate_tiles_more.

Section generate_tiles_extras.

Import SlideData.

Variables (self : SlideData.t) (shape : SlideBackend.shape_arg)
  (stride : option Z) (pad : bool) (kwargs : gmap string Z).

(** X1.  The [k]-th tile yielded is the [k]-th tile of the backend with the
    same pixel data and the same coordinate: the generator neither reorders
    nor inserts tiles, and it never touches image or coordinate. *)
Theorem generate_tiles_keeps_image_and_coords (k : nat) (tile' : Tile.t) :
  yields (generate_tiles self shape stride pad kwargs) !! k = Some tile' ->
  exists backend tile,
    slide self = Some backend /\
    SlideBackend.tiles (SlideBackend.generate_tiles backend shape stride pad kwargs) !! k
    = Some tile /\
    Tile.image tile' = Tile.image tile /\
    Tile.coords tile' = Tile.coords tile.
Proof.
  intros (backend & tile & Hslide & Hk & Hbody)%generate_tiles_lookup.
  exists backend, tile. split; [done |]. split; [done |].
  by apply (body_frame self pad).
Qed.

(** X2.  For an aggregate with a slide.  A generator that raises has
    either yielded exactly the tiles that come before the backend tile on
    which the loop body raised, or it has yielded one tile for each tile of
    the backend and raises the exception that ended the backend's
    generator.  A generator that ends without raising has yielded one tile
    for each tile of the backend, whose generator ended without raising. *)
Theorem generate_tiles_stops_at_first_failure (backend : SlideBackend.t) :
  slide self = Some backend ->
  let g := generate_tiles self shape stride pad kwargs in
  let source := SlideBackend.generate_tiles backend shape stride pad kwargs in
  match raised g with
  | Some e =>
      (exists tile,
         SlideBackend.tiles source !! length (yields g) = Some tile /\
         generate_tiles_body self pad tile = Raise e) \/
      (length (yields g) = length (SlideBackend.tiles source) /\
       Forall (fun tile => exists tile', generate_tiles_body self pad tile = Ok tile')
         (SlideBackend.tiles source) /\
       SlideBackend.error source = Some e)
  | None =>
      length (yields g) = length (SlideBackend.tiles source) /\
      SlideBackend.error source = None
  end.
Proof.
  intros Hslide. cbn. unfold generate_tiles. rewrite Hslide. cbn.
  pose proof (loop_outcome self pad
    (SlideBackend.tiles (SlideBackend.generate_tiles backend shape stride pad kwargs)))
    as Hloop.
  pose proof (loop_yields_lookup self pad
    (SlideBackend.tiles (SlideBackend.generate_tiles backend shape stride pad kwargs)))
    as Hyields.
  destruct (raised (generate_tiles_loop self pad _)) as [e|] eqn:Hraised.
  { by left. }
  assert (Forall (fun tile => exists tile', generate_tiles_body self pad tile = Ok tile')
            (SlideBackend.tiles
               (SlideBackend.generate_tiles backend shape stride pad kwargs)))
    as Hall.
  { apply Forall_lookup. intros k tile Hk.
    destruct (lookup_lt_is_Some_2 (yields (generate_tiles_loop self pad
      (SlideBackend.tiles (SlideBackend.generate_tiles backend shape stride pad kwargs))))
      k) as [tile' Htile'].
    { rewrite Hloop. by eapply lookup_lt_Some. }
    destruct (Hyields k tile' Htile') as (tile0 & Hk0 & Hbody).
    assert (tile0 = tile) as -> by congruence. eauto. }
  destruct (SlideBackend.error _) as [e|]; [right |]; done.
Qed.

(** X3.  For an aggregate with a slide, with [pad = True], or without
    slide-level masks, or when no tile of the backend has coordinates: the
    loop body raises on no tile, so the generator yields one tile for each
    tile of the backend and ends as the backend's generator ends, raising
    what that raises and nothing else. *)
Theorem generate_tiles_total_without_mask_step (backend : SlideBackend.t) :
  slide self = Some backend ->
  let source := SlideBackend.generate_tiles backend shape stride pad kwargs in
  pad = true \/ masks self = None \/
    Forall (fun tile => Tile.coords tile = None) (SlideBackend.tiles source) ->
  raised (generate_tiles self shape stride pad kwargs) = SlideBackend.error source /\
  length (yields (generate_tiles self shape stride pad kwargs))
  = length (SlideBackend.tiles source).
Proof.
  intros Hslide source Hnoop. unfold generate_tiles. rewrite Hslide.
  fold source. cbn. rewrite loop_without_mask_step by done. cbn.
  by rewrite length_fmap.
Qed.

(** X4.  Every tile that is yielded has a slidetype. *)
Theorem yielded_tiles_have_slidetype :
  Forall (fun tile' => Tile.slidetype tile' <> None)
         (yields (generate_tiles self shape stride pad kwargs)).
Proof.
  apply Forall_lookup. intros k tile' Hk.
  apply generate_tiles_lookup in Hk as (backend & tile & _ & _ & Hbody).
  apply body_inv in Hbody as (tile1 & _ & ->).
  unfold attach_slidetype.
  by destruct (Tile.slidetype (attach_labels self tile1)) eqn:Hst; cbn;
    rewrite ?Hst.
Qed.

(** X5.  When the aggregate has no labels, a tile is yielded with the labels
    it came with from the backend. *)
Theorem labels_kept_without_slide_labels (k : nat) (tile' : Tile.t) :
  labels self = None ->
  yields (generate_tiles self shape stride pad kwargs) !! k = Some tile' ->
  exists backend tile,
    slide self = Some backend /\
    SlideBackend.tiles (SlideBackend.generate_tiles backend shape stride pad kwargs) !! k
    = Some tile /\
    Tile.labels tile' = Tile.labels tile.
Proof.
  intros Hnone (backend & tile & Hslide & Hk & Hbody)%generate_tiles_lookup.
  exists backend, tile. split; [done |]. split; [done |].
  apply body_inv in Hbody as (tile1 & Hattach & ->).
  destruct (attach_masks_frame _ _ _ _ Hattach) as (_ & _ & <- & _).
  destruct (attach_slidetype_frame self (attach_labels self tile1))
    as (_ & _ & _ & ->).
  unfold attach_labels. by rewrite Hnone.
Qed.

(** X6.  With [pad = True] or without slide-level masks, passing the tiles
    that the loop yields through the loop again changes nothing: the same
    tiles are yielded, and nothing is raised. *)
Theorem generate_tiles_loop_idempotent (backend_tiles : list Tile.t) :
  pad = true \/ masks self = None ->
  generate_tiles_loop self pad
    (yields (generate_tiles_loop self pad backend_tiles))
  = generate_tiles_loop self pad backend_tiles.
Proof.
  intros Hnoop.
  assert (forall ts : list Tile.t,
            pad = true \/ masks self = None \/
            Forall (fun tile => Tile.coords tile = None) ts) as Hany
    by (intros ts; destruct Hnoop; auto).
  rewrite !loop_without_mask_step by apply Hany. cbn.
  f_equal. rewrite <- list_fmap_compose. apply list_fmap_ext.
  intros _ tile _. cbn.
  by rewrite attach_labels_twice, attach_slidetype_twice.
Qed.

(** X7.  With [pad = False] and non-empty slide-level masks, a tile with
    coordinates that the loop has yielded makes the loop raise the assertion
    error when it comes first in a second pass: masks are attached once. *)
Theorem generate_tiles_loop_not_twice (backend_tiles rest : list Tile.t)
    (tile' : Tile.t) (slide_masks : Masks.t) :
  pad = false ->
  masks self = Some slide_masks ->
  Masks.len slide_masks <> 0%nat ->
  yields (generate_tiles_loop self pad backend_tiles) = tile' :: rest ->
  Tile.coords tile' <> None ->
  generate_tiles_loop self pad (yields (generate_tiles_loop self pad backend_tiles))
  = {| yields := []; raised := Some (AssertionError already_has_mask) |}.
Proof.
  intros Hpad Hmasks Hlen Hyields Hcoords.
  assert (yields (generate_tiles_loop self pad backend_tiles) !! 0%nat = Some tile')
    as Hfirst by (by rewrite Hyields).
  apply loop_yields_lookup in Hfirst as (tile & _ & Hbody).
  rewrite Hyields. cbn.
  destruct (body_frame _ _ _ _ Hbody) as [_ Hc].
  rewrite (body_not_twice self pad tile tile' slide_masks); try done.
  by rewrite <- Hc.
Qed.

End generate_tiles_extras.

(** * Further properties of [run] (lines 69-116) *)

Section run_more.

Import SlideData RunSpec.

Variables (client : option Dask.Client) (tile_size : Z)
  (tile_stride : option Z) (level : Z) (tile_pad : bool).

(** Either the checks let the call through, or [run] raises and leaves the
    world as it was. *)
Lemma run_checks_cases (pipeline : Pipeline.arg) (overwrite : bool)
    (sched : list nat) (w : World) :
  checks_pass pipeline overwrite (self_ w) \/
  (~ checks_pass pipeline overwrite (self_ w) /\
   exists e,
     run pipeline client tile_size tile_stride level tile_pad overwrite sched w
     = (Raise e, w)).
Proof.
  rewrite run_unfold. unfold checks_pass.
  destruct pipeline as [p | ty].
  2:{ right. split; [by intros [[p ?] _] |].
      destruct (run_checks_not_pipeline ty overwrite w) as [msg ->]. eauto. }
  destruct (slide (self_ w)) as [backend|] eqn:Hslide.
  2:{ right. split; [by intros (_ & ? & _) |].
      destruct (run_checks_headless (Pipeline.IsPipeline p) overwrite w Hslide)
        as [msg ->]. eauto. }
  destruct (tiles (self_ w)) as [c|] eqn:Hc; [| left; eauto].
  destruct overwrite; [left; eauto |].
  right. split; [by intros (_ & _ & [? | ?]) |].
  rewrite (run_checks_has_tiles p c w); [eauto | by rewrite Hslide | done].
Qed.

(** Past the checks, the world that [run] leaves is the world after the
    submission loop with some container bound to [self.tiles], with or
    without the dataset. *)
Lemma run_world_past_checks (p : Pipeline.t) (overwrite : bool)
    (sched : list nat) (w : World) :
  slide (self_ w) <> None ->
  tiles (self_ w) = None \/ overwrite = true ->
  let g := run_generator (self_ w) tile_size tile_stride level tile_pad in
  let w1 := after_submit client (yields g) (with_tiles Tiles.empty w) in
  exists c,
    (run (Pipeline.IsPipeline p) client tile_size tile_stride level tile_pad
       overwrite sched w).2 = with_tiles c w1 \/
    (run (Pipeline.IsPipeline p) client tile_size tile_stride level tile_pad
       overwrite sched w).2 = with_dataset (with_tiles c w1).
Proof.
  intros Hslide Hreset g w1.
  rewrite run_unfold, run_checks_pass by done.
  assert (run_generator (self_ (with_tiles Tiles.empty w)) tile_size
            tile_stride level tile_pad = g) as Hg
    by apply run_generator_set_tiles.
  destruct (raised g) as [e|] eqn:Hraised.
  { rewrite (run_dispatch_generator_raises _ _ _ _ _ _ _ _ e) by (by rewrite Hg).
    exists Tiles.empty. left. rewrite Hg. done. }
  destruct (outcomes_split (Dask.as_completed sched (Pipeline.apply p <$> yields g)))
    as [[ts Hts] | (before & e & rest & Hts)].
  - rewrite (run_dispatch_ok _ _ _ _ _ _ _ _ Tiles.empty ts);
      [| done | by rewrite Hg | by rewrite Hg].
    exists (foldl Tiles.add Tiles.empty ts). right. by rewrite Hg.
  - rewrite (run_dispatch_job_raises _ _ _ _ _ _ _ _ Tiles.empty before e rest);
      [| done | by rewrite Hg | by rewrite Hg].
    exists (foldl Tiles.add Tiles.empty before). left. by rewrite Hg.
Qed.

(** Jobs that all succeed have results. *)
Lemma jobs_results (p : Pipeline.t) (ts : list Tile.t) :
  Forall (fun tile => exists tile', Pipeline.apply p tile = Ok tile') ts ->
  exists results, Pipeline.apply p <$> ts = Ok <$> results.
Proof.
  induction 1 as [|tile ts [tile' Htile'] _ [results IH]].
  - by exists [].
  - exists (tile' :: results). cbn. by rewrite Htile', IH.
Qed.

(** X8.  [run] returns without raising exactly when its argument is a
    pipeline, the aggregate has a slide, it has no tiles or overwriting was
    asked for, the generator ends without raising, and every job succeeds;
    the completion order plays no part in this. *)
Theorem run_succeeds_iff (pipeline : Pipeline.arg) (overwrite : bool)
    (sched : list nat) (w : World) :
  (exists w',
     run pipeline client tile_size tile_stride level tile_pad overwrite sched w
     = (Ok tt, w')) <->
  checks_pass pipeline overwrite (self_ w) /\
  raised (run_generator (self_ w) tile_size tile_stride level tile_pad) = None /\
  jobs_succeed pipeline
    (yields (run_generator (self_ w) tile_size tile_stride level tile_pad)).
Proof.
  set (g := run_generator (self_ w) tile_size tile_stride level tile_pad).
  assert (run_generator (self_ (with_tiles Tiles.empty w)) tile_size
            tile_stride level tile_pad = g) as Hg
    by apply run_generator_set_tiles.
  split.
  - intros [w' Hrun].
    destruct (run_checks_cases pipeline overwrite sched w)
      as [Hpass | (_ & e & He)]; [| by rewrite He in Hrun].
    split; [done |]. destruct Hpass as ([p ->] & Hslide & Hreset).
    rewrite run_unfold, run_checks_pass in Hrun by done.
    destruct (raised g) as [e|] eqn:Hraised.
    { rewrite (run_dispatch_generator_raises _ _ _ _ _ _ _ _ e) in Hrun; [done |].
      by rewrite Hg. }
    split; [done |]. exists p. split; [done |].
    destruct (outcomes_split (Dask.as_completed sched (Pipeline.apply p <$> yields g)))
      as [[ts Hts] | (before & e & rest & Hts)].
    2:{ rewrite (run_dispatch_job_raises _ _ _ _ _ _ _ _ Tiles.empty before e rest)
          in Hrun; [done | done | by rewrite Hg | by rewrite Hg]. }
    apply Forall_forall. intros tile Hin.
    assert (Pipeline.apply p tile ∈ Ok <$> ts) as Hok.
    { rewrite <- Hts, as_completed_perm. by apply list_elem_of_fmap_2. }
    apply list_elem_of_fmap in Hok as (tile' & Htile' & _). eauto.
  - intros (([p ->] & Hslide & Hreset) & Hraised & (p' & [= <-] & Hjobs)).
    destruct (jobs_results p _ Hjobs) as [results Hresults].
    eexists. rewrite run_unfold, run_checks_pass by done.
    rewrite (run_dispatch_ok _ _ _ _ _ _ _ _ Tiles.empty
               (Dask.as_completed sched results)); [done | done | by rewrite Hg |].
    rewrite Hg. fold g in Hresults. rewrite Hresults. apply as_completed_fmap.
Qed.

(** X9.  Whatever its outcome, [run] leaves the slide, the masks, the
    labels, the name, the history and the class of the aggregate as they
    were. *)
Theorem run_keeps_slide_attributes (pipeline : Pipeline.arg) (overwrite : bool)
    (sched : list nat) (w : World) :
  same_slide
    (self_ (run pipeline client tile_size tile_stride level tile_pad overwrite
              sched w).2)
    (self_ w).
Proof.
  destruct (run_checks_cases pipeline overwrite sched w)
    as [([p ->] & Hslide & Hreset) | (_ & e & ->)]; [| done].
  destruct (run_world_past_checks p overwrite sched w Hslide Hreset)
    as [c [-> | ->]]; done.
Qed.

(** X10.  When a client is passed in, [run] creates none; when none is
    passed in, [run] creates one client if the checks let the call through,
    whatever happens afterwards, and none if they do not. *)
Theorem run_creates_at_most_one_client (pipeline : Pipeline.arg)
    (overwrite : bool) (sched : list nat) (w : World) :
  let w' := (run pipeline client tile_size tile_stride level tile_pad overwrite
               sched w).2 in
  (client <> None -> clients_created w' = clients_created w) /\
  (client = None -> checks_pass pipeline overwrite (self_ w) ->
   clients_created w' = S (clients_created w)) /\
  (~ checks_pass pipeline overwrite (self_ w) ->
   clients_created w' = clients_created w).
Proof.
  cbn.
  destruct (run_checks_cases pipeline overwrite sched w)
    as [Hpass | (Hfail & e & ->)]; [| done].
  destruct Hpass as ([p ->] & Hslide & Hreset).
  destruct (run_world_past_checks p overwrite sched w Hslide Hreset)
    as [c [-> | ->]]; cbn.
  - split; [by destruct client |]. split; [by intros -> | intros []].
    unfold checks_pass; eauto.
  - split; [by destruct client |]. split; [by intros -> | intros []].
    unfold checks_pass; eauto.
Qed.

(** X11.  Past the checks and whatever the outcome, the jobs that [run]
    has submitted are one job for each tile that the generator yielded, in
    the order of the generator, all to the same client, after the jobs that
    were there before. *)
Theorem run_submits_every_yield (pipeline : Pipeline.arg) (overwrite : bool)
    (sched : list nat) (w : World) :
  checks_pass pipeline overwrite (self_ w) ->
  submitted
    (run pipeline client tile_size tile_stride level tile_pad overwrite sched w).2
  = submitted w
    ++ ((fun tile => (client_used client w, tile))
          <$> yields (run_generator (self_ w) tile_size tile_stride level tile_pad)).
Proof.
  intros ([p ->] & Hslide & Hreset).
  destruct (run_world_past_checks p overwrite sched w Hslide Hreset)
    as [c [-> | ->]]; done.
Qed.

(** X12.  When the generator raises, [run] raises the same exception after
    it has submitted the tiles yielded before; [self.tiles] is left bound to
    a new container without entries, so that earlier tiles are gone when
    overwriting was asked for, and [tile_dataset] is as it was. *)
Theorem run_generator_failure (pipeline : Pipeline.arg) (overwrite : bool)
    (sched : list nat) (w : World) (e : exn) :
  checks_pass pipeline overwrite (self_ w) ->
  let g := run_generator (self_ w) tile_size tile_stride level tile_pad in
  raised g = Some e ->
  exists w',
    run pipeline client tile_size tile_stride level tile_pad overwrite sched w
    = (Raise e, w') /\
    w' = after_submit client (yields g) (with_tiles Tiles.empty w) /\
    tiles (self_ w') = Some Tiles.empty /\
    tile_dataset (self_ w') = tile_dataset (self_ w).
Proof.
  intros ([p ->] & Hslide & Hreset) g Hraised.
  assert (run_generator (self_ (with_tiles Tiles.empty w)) tile_size
            tile_stride level tile_pad = g) as Hg
    by apply run_generator_set_tiles.
  eexists. rewrite run_unfold, run_checks_pass by done.
  rewrite (run_dispatch_generator_raises _ _ _ _ _ _ _ _ e) by (by rewrite Hg).
  rewrite Hg. done.
Qed.

(** X13.  Once the checks have let a call of [run] through, whether it then
    returned or raised, [self.tiles] is bound to a container: a following
    call without [overwrite_existing_tiles] raises the already-has-tiles
    exception and changes nothing. *)
Theorem rerun_needs_overwrite (pipeline : Pipeline.arg) (overwrite : bool)
    (sched : list nat) (w : World)
    (p2 : Pipeline.t) (client2 : option Dask.Client) (tile_size2 : Z)
    (tile_stride2 : option Z) (level2 : Z) (tile_pad2 : bool)
    (sched2 : list nat) :
  checks_pass pipeline overwrite (self_ w) ->
  let w' := (run pipeline client tile_size tile_stride level tile_pad overwrite
               sched w).2 in
  run (Pipeline.IsPipeline p2) client2 tile_size2 tile_stride2 level2 tile_pad2
    false sched2 w'
  = (Raise already_has_tiles, w').
Proof.
  intros ([p ->] & Hslide & Hreset) w'.
  rewrite (run_unfold client2). subst w'.
  destruct (run_world_past_checks p overwrite sched w Hslide Hreset)
    as [c [-> | ->]].
  - by rewrite (run_checks_has_tiles p2 c).
  - by rewrite (run_checks_has_tiles p2 c).
Qed.

(** X14.  With [overwrite_existing_tiles], what [run] returns and the world
    it leaves do not depend on the container that [self.tiles] held. *)
Theorem overwrite_forgets_prior_tiles (p : Pipeline.t) (sched : list nat)
    (w : World) (c : Tiles.t) :
  slide (self_ w) <> None ->
  run (Pipeline.IsPipeline p) client tile_size tile_stride level tile_pad true
    sched (with_tiles c w)
  = run (Pipeline.IsPipeline p) client tile_size tile_stride level tile_pad true
      sched w.
Proof.
  intros Hslide. rewrite !run_unfold, !run_checks_pass by auto. done.
Qed.

End run_more.

(** * [TileDataset] (lines 119-132) *)

(** X15.  A dataset made from an aggregate without tiles raises [TypeError]
    on [len] and on every lookup; every item that a dataset returns is an
    entry of the aggregate's container paired with the aggregate's labels
    reference. *)
Theorem dataset_reads_tiles_and_labels (slidedata : SlideData.t) :
  let d := SlideData._create_tile_dataset slidedata in
  (SlideData.tiles slidedata = None ->
   (exists msg, TileDataset.__len__ d = Raise (Py.TypeError msg)) /\
   (forall ix, exists msg, TileDataset.__getitem__ d ix = Raise (Py.TypeError msg))) /\
  (forall c, SlideData.tiles slidedata = Some c ->
             TileDataset.__len__ d = Ok (Tiles.len c)) /\
  (forall ix tile l,
     TileDataset.__getitem__ d ix = Ok (tile, l) ->
     l = SlideData.labels slidedata /\
     exists c, SlideData.tiles slidedata = Some c /\ Tiles.getitem c ix = Ok tile).
Proof.
  cbn. unfold TileDataset.__len__, TileDataset.__getitem__. cbn.
  split; [intros ->; eauto |]. split; [by intros c -> |].
  intros ix tile l. destruct (SlideData.tiles slidedata) as [c|]; [| done].
  cbn. destruct (Tiles.getitem c ix) as [tile0|e] eqn:Hget; cbn; [| done].
  intros [= -> <-]. eauto.
Qed.

(** * [SlideData.__init__] (lines 28-58) *)

Section init_facts.

Import Init.

Variables (OpenSlideBackend : PyClass) (stem : string -> string).

(** The checks pass exactly on well-typed arguments. *)
Lemma check_inputs_ok (slide_backend : backend_arg) (masks : masks_arg)
    (tiles : tiles_arg) (labels : labels_arg) :
  check_inputs slide_backend masks tiles labels = Ok tt
  <-> well_typed slide_backend masks tiles labels.
Proof.
  unfold check_inputs, well_typed.
  destruct masks, labels, tiles, slide_backend as [|cl|ty]; cbn;
    try destruct (is_slide_backend cl) eqn:Hc; cbn;
    (split; [try done; intros _; repeat split; intros; congruence
            | try done; intros (Hm & Hl & Ht & Hn & Hb);
              try (by edestruct Hm); try (by edestruct Hl);
              try (by edestruct Ht); try (by edestruct Hn);
              try (by specialize (Hb cl eq_refl); congruence) ]).
Qed.

(** What the checks raise. *)
Lemma check_inputs_raise (slide_backend : backend_arg) (masks : masks_arg)
    (tiles : tiles_arg) (labels : labels_arg) (e : exn) :
  check_inputs slide_backend masks tiles labels = Raise e ->
  (exists msg, e = AssertionError msg) \/
  (e = TypeError "issubclass() arg 1 must be a class" /\
   (exists ty, slide_backend = BackendNotAClass ty) /\
   (forall ty, masks <> MasksOther ty) /\
   (forall ty, labels <> LabelsOther ty) /\
   (forall ty, tiles <> TilesOther ty)).
Proof.
  unfold check_inputs.
  destruct masks, labels, tiles, slide_backend as [|cl|ty]; cbn;
    try destruct (is_slide_backend cl); cbn; intros [= <-]; eauto;
    right; (split; [done |]); (split; [eauto |]); repeat split; congruence.
Qed.

(** A constructed object, read off the arguments. *)
Lemma init_inv (filepath name : option string) (slide_backend : backend_arg)
    (masks : masks_arg) (tiles : tiles_arg) (labels : labels_arg)
    (history : option (list string)) (a : Init.t) :
  __init__ OpenSlideBackend stem filepath name slide_backend masks tiles labels
    history = Ok a ->
  well_typed slide_backend masks tiles labels /\
  match filepath with
  | Some path =>
      exists s,
        call (backend_used OpenSlideBackend slide_backend) path = Ok s /\
        Init.slide a = Some s /\
        Init.slide_backend a = Some (backend_used OpenSlideBackend slide_backend)
  | None =>
      Init.slide a = None /\
      Init.slide_backend a
      = match slide_backend with BackendClass c => Some c | _ => None end
  end /\
  Init.name a = match name with
                | Some n => Some n
                | None => stem <$> filepath
                end /\
  Init.masks a = masks /\ Init.tiles a = tiles /\ Init.labels a = labels /\
  Init.history a = history /\ Init.tile_dataset a = None.
Proof.
  unfold __init__.
  destruct (check_inputs slide_backend masks tiles labels) as [[]|e] eqn:Hchecks;
    cbn; [| done].
  apply check_inputs_ok in Hchecks. intros Hinit. split; [done |].
  destruct filepath as [path|]; cbn in Hinit.
  - assert (match slide_backend with
            | BackendClass c => c
            | _ => OpenSlideBackend
            end = backend_used OpenSlideBackend slide_backend) as Hused by done.
    destruct slide_backend as [|c|ty]; cbn in *;
      (destruct (call _ path) as [s|e] eqn:Hcall; cbn in Hinit; [| done]);
      injection Hinit as <-; cbn; (split; [by exists s |]);
      by destruct name.
  - injection Hinit as <-. cbn. by destruct name, slide_backend.
Qed.

(** X16.  The constructor returns an object exactly when [masks], [labels],
    [tiles] and [slide_backend] pass the four type checks and, if a path is
    given, the backend class (the one passed in, else the default) opens
    it. *)
Theorem init_succeeds_iff (filepath name : option string)
    (slide_backend : backend_arg) (masks : masks_arg) (tiles : tiles_arg)
    (labels : labels_arg) (history : option (list string)) :
  (exists a,
     __init__ OpenSlideBackend stem filepath name slide_backend masks tiles
       labels history = Ok a) <->
  well_typed slide_backend masks tiles labels /\
  (forall path, filepath = Some path ->
     exists s, call (backend_used OpenSlideBackend slide_backend) path = Ok s).
Proof.
  split.
  - intros [a (Htyped & Hslide & _)%init_inv]. split; [done |].
    intros path ->. destruct Hslide as (s & Hcall & _). eauto.
  - intros [Htyped Hopen]. unfold __init__.
    apply check_inputs_ok in Htyped as ->. cbn.
    destruct filepath as [path|]; cbn; [| eauto].
    destruct (Hopen path eq_refl) as [s Hs].
    destruct slide_backend as [|c|ty]; cbn in *; rewrite Hs; cbn; eauto.
Qed.

(** X17.  On arguments that fail a type check the constructor raises
    whatever the path, the name and the history are, so before the backend
    is asked to open anything; it raises an [AssertionError], except that a
    [slide_backend] that is not a class raises the [TypeError] of
    [issubclass] when the other three arguments pass. *)
Theorem init_type_errors (slide_backend : backend_arg) (masks : masks_arg)
    (tiles : tiles_arg) (labels : labels_arg) :
  ~ well_typed slide_backend masks tiles labels ->
  exists e,
    (forall filepath name history,
       __init__ OpenSlideBackend stem filepath name slide_backend masks tiles
         labels history = Raise e) /\
    ((exists msg, e = AssertionError msg) \/
     (e = TypeError "issubclass() arg 1 must be a class" /\
      (exists ty, slide_backend = BackendNotAClass ty) /\
      (forall ty, masks <> MasksOther ty) /\
      (forall ty, labels <> LabelsOther ty) /\
      (forall ty, tiles <> TilesOther ty))).
Proof.
  intros Hbad.
  destruct (check_inputs slide_backend masks tiles labels) as [[]|e] eqn:Hchecks.
  { by apply check_inputs_ok in Hchecks. }
  exists e. split.
  - intros filepath name history. unfold __init__. by rewrite Hchecks.
  - by apply check_inputs_raise in Hchecks.
Qed.

(** X18.  An object constructed without a path has no slide, also when a
    backend class was passed in, and [run] on it raises an assertion error
    and changes nothing, whatever its arguments. *)
Theorem init_without_filepath_cannot_run (name : option string)
    (slide_backend : backend_arg) (masks : masks_arg) (tiles : tiles_arg)
    (labels : labels_arg) (history : option (list string)) (a : Init.t) :
  __init__ OpenSlideBackend stem None name slide_backend masks tiles labels
    history = Ok a ->
  Init.slide a = None /\
  forall cls self, aggregate cls a = Some self ->
    forall pipeline client tile_size tile_stride level tile_pad overwrite sched w,
      SlideData.self_ w = self ->
      exists msg,
        SlideData.run pipeline client tile_size tile_stride level tile_pad
          overwrite sched w
        = (Raise (AssertionError msg), w).
Proof.
  intros (_ & [Hslide _] & _)%init_inv. split; [done |].
  intros cls self Hself pipeline client tile_size tile_stride level tile_pad
    overwrite sched w Hw.
  assert (SlideData.slide (SlideData.self_ w) = None) as Hnone.
  { rewrite Hw. unfold aggregate in Hself.
    destruct (Init.masks a), (Init.tiles a), (Init.labels a); cbn in Hself;
      try done; injection Hself as <-; done. }
  rewrite run_unfold.
  destruct (run_checks_headless pipeline overwrite w Hnone) as [msg ->].
  by exists msg.
Qed.

(** X19.  With a path and well-typed arguments, the slide is what the
    backend class returns for the path, the class being the one passed in
    or else [OpenSlideBackend], which is then also stored as
    [slide_backend]; what the class raises, the constructor raises. *)
Theorem init_opens_slide (path : string) (name : option string)
    (slide_backend : backend_arg) (masks : masks_arg) (tiles : tiles_arg)
    (labels : labels_arg) (history : option (list string)) :
  well_typed slide_backend masks tiles labels ->
  match call (backend_used OpenSlideBackend slide_backend) path with
  | Ok s =>
      exists a,
        __init__ OpenSlideBackend stem (Some path) name slide_backend masks
          tiles labels history = Ok a /\
        Init.slide a = Some s /\
        Init.slide_backend a = Some (backend_used OpenSlideBackend slide_backend)
  | Raise e =>
      __init__ OpenSlideBackend stem (Some path) name slide_backend masks
        tiles labels history = Raise e
  end.
Proof.
  intros Htyped. unfold __init__.
  apply check_inputs_ok in Htyped as ->. cbn.
  destruct slide_backend as [|c|ty]; cbn;
    destruct (call _ path) as [s|e]; cbn; eauto.
Qed.

(** A name that is passed in is kept; without one, the name is the stem of
    the path, and [None] when there is no path either. *)
Theorem init_name (filepath name : option string) (slide_backend : backend_arg)
    (masks : masks_arg) (tiles : tiles_arg) (labels : labels_arg)
    (history : option (list string)) (a : Init.t) :
  __init__ OpenSlideBackend stem filepath name slide_backend masks tiles labels
    history = Ok a ->
  Init.name a = match name with
                | Some n => Some n
                | None => stem <$> filepath
                end.
Proof. by intros (_ & _ & Hname & _)%init_inv. Qed.

(** X20.  On an object constructed with a path, the first [run] without
    [overwrite_existing_tiles] is refused with the already-has-tiles
    exception exactly when a tiles container was passed to the constructor;
    the object starts without dataset. *)
Theorem first_run_after_init (path : string) (name : option string)
    (slide_backend : backend_arg) (masks : masks_arg) (tiles : tiles_arg)
    (labels : labels_arg) (history : option (list string)) (a : Init.t)
    (cls : Tile.SlideType) (self : SlideData.t) :
  __init__ OpenSlideBackend stem (Some path) name slide_backend masks tiles
    labels history = Ok a ->
  aggregate cls a = Some self ->
  SlideData.tile_dataset self = None /\
  forall p client tile_size tile_stride level tile_pad sched w,
    SlideData.self_ w = self ->
    (SlideData.run (Pipeline.IsPipeline p) client tile_size tile_stride level
       tile_pad false sched w = (Raise SlideData.already_has_tiles, w)
     <-> tiles <> TilesNone).
Proof.
  intros (_ & (s & _ & Hslide & _) & _ & _ & Htiles & _ & _ & Hds)%init_inv Hself.
  assert (SlideData.slide self = Some s /\
          SlideData.tile_dataset self = None /\
          (SlideData.tiles self = None <-> tiles = TilesNone)) as (Hs & Hd & Ht).
  { unfold aggregate in Hself. rewrite Htiles in Hself.
    destruct (Init.masks a), tiles, (Init.labels a); cbn in Hself;
      try done; injection Hself as <-; cbn; done. }
  split; [done |].
  intros p client tile_size tile_stride level tile_pad sched w <-.
  assert (SlideData.slide (SlideData.self_ w) <> None) as Hsome by (by rewrite Hs).
  rewrite <- Ht. split.
  - intros Hrun Hnone. rewrite run_unfold, run_checks_pass in Hrun by auto.
    pose proof (run_dispatch_keeps_tiles client tile_size tile_stride level
                  tile_pad p sched (SlideData.with_tiles Tiles.empty w)
                  Tiles.empty eq_refl) as Hkeeps.
    rewrite Hrun in Hkeeps. cbn in Hkeeps. done.
  - intros Hnot. destruct (SlideData.tiles (SlideData.self_ w)) as [c|] eqn:Hc;
      [| done].
    rewrite run_unfold. by rewrite (run_checks_has_tiles p c).
Qed.

End init_facts.

(** * The further properties on concrete slides *)

Section extras_on_scenario.

Import SlideData RunSpec Scenario InitScenario.

Lemma generate_tiles_keeps_image_and_coords_witness :
  exists tile' backend tile,
    yields (generate_tiles he_slide square4 None false ∅) !! 2%nat = Some tile' /\
    slide he_slide = Some backend /\
    SlideBackend.tiles (SlideBackend.generate_tiles backend square4 None false ∅)
      !! 2%nat = Some tile /\
    Tile.image tile' = Tile.image tile /\
    Tile.coords tile' = Tile.coords tile.
Proof.
  edestruct (generate_tiles_keeps_image_and_coords he_slide square4 None false ∅ 2)
    as (backend & tile & Hslide & Hk & Himg & Hc); [reflexivity |].
  eexists _, backend, tile. done.
Defined.

Lemma generate_tiles_stops_at_first_failure_witness :
  slide masked_slide = Some (backend_of [raw_tile 0 4; masked_tile; raw_tile 4 4]) /\
  slide failing_slide = Some failing_backend /\
  (exists tile,
     [raw_tile 0 4; masked_tile; raw_tile 4 4]
       !! length (yields (generate_tiles masked_slide square4 None false ∅))
     = Some tile /\
     generate_tiles_body masked_slide false tile
     = Raise (AssertionError already_has_mask)) /\
  (raised (generate_tiles failing_slide square4 None false ∅)
   = Some (ValueError "level does not exist") /\
   length (yields (generate_tiles failing_slide square4 None false ∅)) = 2%nat /\
   Forall (fun tile =>
             exists tile', generate_tiles_body failing_slide false tile = Ok tile')
     [raw_tile 0 0; raw_tile 0 4]).
Proof.
  split; [reflexivity |]. split; [reflexivity |]. split.
  - assert ((exists tile,
               [raw_tile 0 4; masked_tile; raw_tile 4 4]
                 !! length (yields (generate_tiles masked_slide square4 None false ∅))
               = Some tile /\
               generate_tiles_body masked_slide false tile
               = Raise (AssertionError already_has_mask)) \/
            (length (yields (generate_tiles masked_slide square4 None false ∅))
             = 3%nat /\
             Forall (fun tile =>
                       exists tile',
                         generate_tiles_body masked_slide false tile = Ok tile')
               [raw_tile 0 4; masked_tile; raw_tile 4 4] /\
             None = Some (AssertionError already_has_mask)))
      as [Hbody | (_ & _ & Hbackend)];
      [| exact Hbody | discriminate Hbackend].
    exact (generate_tiles_stops_at_first_failure masked_slide square4 None
             false ∅ (backend_of [raw_tile 0 4; masked_tile; raw_tile 4 4])
             eq_refl).
  - split; [reflexivity |].
    assert ((exists tile,
               [raw_tile 0 0; raw_tile 0 4] !! 2%nat = Some tile /\
               generate_tiles_body failing_slide false tile
               = Raise (ValueError "level does not exist")) \/
            (length (yields (generate_tiles failing_slide square4 None false ∅))
             = 2%nat /\
             Forall (fun tile =>
                       exists tile',
                         generate_tiles_body failing_slide false tile = Ok tile')
               [raw_tile 0 0; raw_tile 0 4] /\
             Some (ValueError "level does not exist")
             = Some (ValueError "level does not exist")))
      as [(tile & Hk & _) | (Hlen & Hall & _)];
      [| discriminate Hk | exact (conj Hlen Hall)].
    exact (generate_tiles_stops_at_first_failure failing_slide square4 None
             false ∅ failing_backend eq_refl).
Defined.

Lemma generate_tiles_total_without_mask_step_witness :
  slide masked_slide = Some (backend_of [raw_tile 0 4; masked_tile; raw_tile 4 4]) /\
  slide failing_slide = Some failing_backend /\
  (raised (generate_tiles masked_slide square4 None true ∅) = None /\
   length (yields (generate_tiles masked_slide square4 None true ∅)) = 3%nat) /\
  (raised (generate_tiles failing_slide square4 None true ∅)
   = Some (ValueError "level does not exist") /\
   length (yields (generate_tiles failing_slide square4 None true ∅)) = 2%nat).
Proof.
  split; [reflexivity |]. split; [reflexivity |]. split.
  - apply (generate_tiles_total_without_mask_step masked_slide square4 None true ∅
             (backend_of [raw_tile 0 4; masked_tile; raw_tile 4 4]));
      [reflexivity | by left].
  - apply (generate_tiles_total_without_mask_step failing_slide square4 None true ∅
             failing_backend); [reflexivity | by left].
Defined.

Lemma labels_kept_without_slide_labels_witness :
  exists tile' backend tile,
    labels thumbnail_slide = None /\
    yields (generate_tiles thumbnail_slide square4 None true ∅) !! 1%nat
    = Some tile' /\
    slide thumbnail_slide = Some backend /\
    SlideBackend.tiles (SlideBackend.generate_tiles backend square4 None true ∅)
      !! 1%nat = Some tile /\
    Tile.labels tile' = Tile.labels tile.
Proof.
  edestruct (labels_kept_without_slide_labels thumbnail_slide square4 None true ∅ 1)
    as (backend & tile & Hslide & Hk & Hl); [reflexivity | reflexivity |].
  eexists _, backend, tile. done.
Defined.

Lemma generate_tiles_loop_idempotent_witness :
  generate_tiles_loop he_slide true
    (yields (generate_tiles_loop he_slide true [raw_tile 0 4; masked_tile]))
  = generate_tiles_loop he_slide true [raw_tile 0 4; masked_tile].
Proof.
  apply (generate_tiles_loop_idempotent he_slide true [raw_tile 0 4; masked_tile]).
  by left.
Defined.

Lemma generate_tiles_loop_not_twice_witness :
  masks he_slide = Some {[ "tumor" := tumor ]} /\
  generate_tiles_loop he_slide false
    (yields (generate_tiles_loop he_slide false grid))
  = {| yields := []; raised := Some (AssertionError already_has_mask) |}.
Proof.
  split; [reflexivity |].
  eapply (generate_tiles_loop_not_twice he_slide false grid _ _
            {[ "tumor" := tumor ]}); [reflexivity | reflexivity | | reflexivity | done].
  unfold Masks.len. rewrite map_size_singleton. lia.
Defined.

Lemma run_submits_every_yield_witness :
  checks_pass (Pipeline.IsPipeline fails_at_4_0) false (self_ (world_of he_slide)) /\
  submitted
    (run (Pipeline.IsPipeline fails_at_4_0) None 4 None 0 false false
       [3; 0; 0; 0]%nat (world_of he_slide)).2
  = submitted (world_of he_slide)
    ++ ((fun tile => (client_used None (world_of he_slide), tile))
          <$> yields (run_generator he_slide 4 None 0 false)).
Proof.
  assert (checks_pass (Pipeline.IsPipeline fails_at_4_0) false
            (self_ (world_of he_slide))) as Hpass.
  { split; [by eexists |]. split; [done | by left]. }
  split; [exact Hpass |].
  exact (run_submits_every_yield None 4 None 0 false
           (Pipeline.IsPipeline fails_at_4_0) false [3; 0; 0; 0]%nat
           (world_of he_slide) Hpass).
Defined.

Lemma run_generator_failure_witness :
  checks_pass (Pipeline.IsPipeline identity) true (self_ (world_of masked_slide)) /\
  raised (run_generator masked_slide 4 None 0 false)
  = Some (AssertionError already_has_mask) /\
  exists w',
    run (Pipeline.IsPipeline identity) None 4 None 0 false true []
      (world_of masked_slide)
    = (Raise (AssertionError already_has_mask), w') /\
    w' = after_submit None (yields (run_generator masked_slide 4 None 0 false))
           (with_tiles Tiles.empty (world_of masked_slide)) /\
    tiles (self_ w') = Some Tiles.empty /\
    tile_dataset (self_ w') = tile_dataset (self_ (world_of masked_slide)).
Proof.
  assert (checks_pass (Pipeline.IsPipeline identity) true
            (self_ (world_of masked_slide))) as Hpass.
  { split; [by eexists |]. split; [done | by right]. }
  split; [exact Hpass |]. split; [reflexivity |].
  exact (run_generator_failure None 4 None 0 false (Pipeline.IsPipeline identity)
           true [] (world_of masked_slide) (AssertionError already_has_mask)
           Hpass eq_refl).
Defined.

Lemma rerun_needs_overwrite_witness :
  checks_pass (Pipeline.IsPipeline fails_at_4_0) false (self_ (world_of he_slide)) /\
  run (Pipeline.IsPipeline identity) None 4 None 0 false false []
    (run (Pipeline.IsPipeline fails_at_4_0) None 4 None 0 false false
       [3; 0; 0; 0]%nat (world_of he_slide)).2
  = (Raise already_has_tiles,
     (run (Pipeline.IsPipeline fails_at_4_0) None 4 None 0 false false
        [3; 0; 0; 0]%nat (world_of he_slide)).2).
Proof.
  assert (checks_pass (Pipeline.IsPipeline fails_at_4_0) false
            (self_ (world_of he_slide))) as Hpass.
  { split; [by eexists |]. split; [done | by left]. }
  split; [exact Hpass |].
  exact (rerun_needs_overwrite None 4 None 0 false
           (Pipeline.IsPipeline fails_at_4_0) false [3; 0; 0; 0]%nat
           (world_of he_slide) identity None 4 None 0 false [] Hpass).
Defined.

Lemma overwrite_forgets_prior_tiles_witness :
  slide (self_ (world_of he_slide)) <> None /\
  run (Pipeline.IsPipeline identity) None 4 None 0 false true [1]%nat
    (with_tiles (Tiles.add Tiles.empty (raw_tile 8 8)) (world_of he_slide))
  = run (Pipeline.IsPipeline identity) None 4 None 0 false true [1]%nat
      (world_of he_slide).
Proof.
  assert (slide (self_ (world_of he_slide)) <> None) as Hslide by done.
  split; [exact Hslide |].
  exact (overwrite_forgets_prior_tiles None 4 None 0 false identity [1]%nat
           (world_of he_slide) (Tiles.add Tiles.empty (raw_tile 8 8)) Hslide).
Defined.

Lemma init_type_errors_witness :
  ~ Init.well_typed (Init.BackendNotAClass "<class 'str'>") Init.MasksNone
      Init.TilesNone Init.LabelsNone /\
  exists e,
    (forall filepath name history,
       Init.__init__ OpenSlide stem filepath name
         (Init.BackendNotAClass "<class 'str'>") Init.MasksNone Init.TilesNone
         Init.LabelsNone history = Raise e) /\
    ((exists msg, e = Py.AssertionError msg) \/
     (e = Py.TypeError "issubclass() arg 1 must be a class" /\
      (exists ty, Init.BackendNotAClass "<class 'str'>" = Init.BackendNotAClass ty) /\
      (forall ty, Init.MasksNone <> Init.MasksOther ty) /\
      (forall ty, Init.LabelsNone <> Init.LabelsOther ty) /\
      (forall ty, Init.TilesNone <> Init.TilesOther ty))).
Proof.
  assert (~ Init.well_typed (Init.BackendNotAClass "<class 'str'>") Init.MasksNone
            Init.TilesNone Init.LabelsNone) as Hbad.
  { intros (_ & _ & _ & Hclass & _). by eapply Hclass. }
  split; [exact Hbad |].
  exact (init_type_errors OpenSlide stem _ _ _ _ Hbad).
Defined.

Lemma init_without_filepath_cannot_run_witness :
  exists a,
    Init.__init__ OpenSlide stem None (Some "slide") (Init.BackendClass GridBackend)
      Init.MasksNone Init.TilesNone Init.LabelsNone None = Ok a /\
    Init.slide a = None /\
    forall cls self, Init.aggregate cls a = Some self ->
      forall pipeline client tile_size tile_stride level tile_pad overwrite sched w,
        self_ w = self ->
        exists msg,
          run pipeline client tile_size tile_stride level tile_pad overwrite
            sched w
          = (Raise (AssertionError msg), w).
Proof.
  eexists. split; [reflexivity |].
  apply (init_without_filepath_cannot_run OpenSlide stem (Some "slide")
           (Init.BackendClass GridBackend) Init.MasksNone Init.TilesNone
           Init.LabelsNone None).
  reflexivity.
Defined.

Lemma init_opens_slide_witness :
  Init.well_typed Init.BackendNone Init.MasksNone Init.TilesNone Init.LabelsNone /\
  Init.__init__ OpenSlide stem (Some "missing.svs") None Init.BackendNone
    Init.MasksNone Init.TilesNone Init.LabelsNone None
  = Raise (Exception "unsupported or missing image file") /\
  exists a,
    Init.__init__ OpenSlide stem (Some "data/slide_1.svs") None Init.BackendNone
      Init.MasksNone Init.TilesNone Init.LabelsNone None = Ok a /\
    Init.slide a = Some (backend_of [raw_tile 0 0]) /\
    Init.slide_backend a = Some OpenSlide.
Proof.
  assert (Init.well_typed Init.BackendNone Init.MasksNone Init.TilesNone
            Init.LabelsNone) as Htyped by (repeat split; intros; congruence).
  split; [exact Htyped |]. split.
  - exact (init_opens_slide OpenSlide stem "missing.svs" None _ _ _ _ None Htyped).
  - exact (init_opens_slide OpenSlide stem "data/slide_1.svs" None _ _ _ _ None
             Htyped).
Defined.

Lemma init_name_witness :
  exists a,
    Init.__init__ OpenSlide stem (Some "data/slide_1.svs") None Init.BackendNone
      Init.MasksNone Init.TilesNone Init.LabelsNone None = Ok a /\
    Init.name a = Some "slide_1".
Proof.
  eexists. split; [reflexivity |].
  exact (init_name OpenSlide stem (Some "data/slide_1.svs") None Init.BackendNone
           Init.MasksNone Init.TilesNone Init.LabelsNone None _ eq_refl).
Defined.

Lemma first_run_after_init_witness :
  exists a self,
    Init.__init__ OpenSlide stem (Some "data/slide_1.svs") None
      (Init.BackendClass GridBackend) Init.MasksNone
      (Init.TilesObject Tiles.empty) Init.LabelsNone None = Ok a /\
    Init.aggregate "HESlide" a = Some self /\
    tile_dataset self = None /\
    run (Pipeline.IsPipeline identity) None 4 None 0 false false []
      (world_of self)
    = (Raise already_has_tiles, world_of self).
Proof.
  eexists _, _. split; [reflexivity |]. split; [reflexivity |].
  edestruct (first_run_after_init OpenSlide stem "data/slide_1.svs" None
               (Init.BackendClass GridBackend) Init.MasksNone
               (Init.TilesObject Tiles.empty) Init.LabelsNone None)
    as [Hds Hrun]; [reflexivity | reflexivity |].
  split; [exact Hds |].
  by apply (Hrun identity None 4 None 0 false [] (world_of _) eq_refl).
Defined.

End extras_on_scenario.
